(** * StockCast: the Monte Carlo engine and the Transform cleaning step

    A shallow embedding of two functions of the repository,

    - [run_monte_carlo]   (src/Monte_Carlo/monte-carlo-method.py)
    - [clean_stock_data]  (src/Transform/main.py)

    together with the properties their specification states about them.

    Conventions of the embedding.

    - A Python exception is a value [Exception cls msg]; a call that can
      raise returns a [result].
    - The calls into yfinance, numpy.random and pandas' parsers are not
      code of the repository: they are fields of the classes [Libraries]
      and [Pandas].  The generator behind [np.random] is global mutable
      state; it is threaded explicitly through [run_monte_carlo] as part
      of a [World].
    - The float operations of the simulation are the fields of [FloatOps].
      The theorems on the shape of the table hold for every
      interpretation of them; the algebraic ones are stated for the
      interpretation in the real numbers, where rounding, overflow and
      NaN do not exist.
    - The price and volume columns of the Transform frames are binary64
      floats (primitive floats), with IEEE comparisons and NaN. *)

From Stdlib Require Import String Ascii.
From Stdlib Require Import List ZArith Bool Lia.
From Stdlib Require Import Reals Lra.
From Stdlib Require Floats.
From Stdlib Require Import Sorted Permutation.
From Stdlib Require OrderedTypeEx.
Import ListNotations.

Set Implicit Arguments.

(* ================================================================== *)
(** * Python results and exceptions *)

Module Py.

(** An exception, identified by the name of its class. *)
Inductive exception : Type :=
| Exception (cls : string) (msg : string).

Inductive result (A : Type) : Type :=
| Ok (a : A)
| Raise (e : exception).

Arguments Ok {A} a.
Arguments Raise {A} e.

Definition bind {A B : Type} (r : result A) (k : A -> result B) : result B :=
  match r with
  | Ok a => k a
  | Raise e => Raise e
  end.

(** [raises cls r]: the call ended with an exception of class [cls]. *)
Definition raises {A : Type} (cls : string) (r : result A) : Prop :=
  exists msg, r = Raise (Exception cls msg).

Definition returned {A : Type} (r : result A) : Prop :=
  exists a, r = Ok a.

(** The exceptions the interpreter itself raises in the modelled code. *)
Definition ZeroDivisionError : exception :=
  Exception "ZeroDivisionError" "division by zero".
Definition IndexError : exception :=
  Exception "IndexError" "index is out of bounds for axis 1".
Definition KeyError (key : string) : exception :=
  Exception "KeyError" key.

(** [range(n)] and [enumerate(l)]. *)
Definition range (n : Z) : list Z :=
  map Z.of_nat (seq 0 (Z.to_nat n)).

Definition enumerate {A : Type} (l : list A) : list (nat * A) :=
  combine (seq 0 (length l)) l.

Definition len {A : Type} (l : list A) : Z := Z.of_nat (length l).

End Py.

Declare Scope py_scope.
Delimit Scope py_scope with py.
Notation "x <- r ;; k" := (Py.bind r (fun x => k))
  (at level 61, r at next level, right associativity) : py_scope.

(* ================================================================== *)
(** * The Monte Carlo engine *)

Module MonteCarlo.
Import Py.
Local Open Scope py_scope.

(** The float operations used by the engine.  Sums and products are
    folds of [fadd] and [fmul] from the left; the order in which numpy
    adds is not modelled. *)
Class FloatOps (F : Type) : Type := {
  fadd : F -> F -> F;
  fsub : F -> F -> F;
  fmul : F -> F -> F;
  fdiv : F -> F -> F;          (* numpy scalar division: never raises *)
  fpow : F -> F -> F;          (* [**] *)
  fexp : F -> F;               (* np.exp *)
  flog : F -> F;               (* np.log *)
  fsqrt : F -> F;              (* np.sqrt *)
  of_int : Z -> F              (* int -> float *)
}.

Section Frames.
Context {F : Type} {ops : FloatOps F}.

(** A cell of a pandas frame: [None] is NaN (missing). *)
Definition Cell : Type := option F.

(** A frame: column labels, and the rows as (date label, cells). *)
Record DataFrame : Type := mkFrame {
  columns : list string;
  rows : list (string * list Cell)
}.

(** A two-dimensional numpy array of shape [(length nd_rows, nd_cols)]. *)
Record ndarray : Type := mkArray {
  nd_cols : nat;
  nd_rows : list (list F)
}.

Definition notna (c : Cell) : bool :=
  match c with Some _ => true | None => false end.

(** [df.dropna()]: the rows without any missing cell. *)
Definition dropna (df : DataFrame) : DataFrame :=
  mkFrame (columns df) (filter (fun r => forallb notna (snd r)) (rows df)).

Fixpoint shift_from (prev : list Cell) (rs : list (string * list Cell))
  : list (string * list Cell) :=
  match rs with
  | [] => []
  | (d, v) :: rs' => (d, prev) :: shift_from v rs'
  end.

(** [df.shift(1)]: every row holds the cells of the row before it, the
    first one NaN. *)
Definition shift1 (df : DataFrame) : DataFrame :=
  mkFrame (columns df)
          (shift_from (repeat None (length (columns df))) (rows df)).

Definition cell_div (a b : Cell) : Cell :=
  match a, b with
  | Some x, Some y => Some (fdiv x y)
  | _, _ => None
  end.

Fixpoint map2 {A B C : Type} (f : A -> B -> C) (l : list A) (m : list B)
  : list C :=
  match l, m with
  | a :: l', b :: m' => f a b :: map2 f l' m'
  | _, _ => []
  end.

(** [a / b] for two frames over the same index and columns. *)
Definition frame_div (a b : DataFrame) : DataFrame :=
  mkFrame (columns a)
          (map2 (fun ra rb => (fst ra, map2 cell_div (snd ra) (snd rb)))
                (rows a) (rows b)).

(** [np.log(df)]. *)
Definition np_log (df : DataFrame) : DataFrame :=
  mkFrame (columns df)
          (map (fun r => (fst r, map (option_map flog) (snd r))) (rows df)).

Definition fsum (l : list F) : F := fold_left fadd l (of_int 0).
Definition fprod (l : list F) : F := fold_left fmul l (of_int 1).

(** The present values of column [j]. *)
Definition column_values (df : DataFrame) (j : nat) : list F :=
  flat_map (fun r => match nth_error (snd r) j with
                     | Some (Some x) => [x]
                     | _ => []
                     end) (rows df).

Definition mean_of (vals : list F) : Cell :=
  match vals with
  | [] => None
  | _ => Some (fdiv (fsum vals) (of_int (len vals)))
  end.

(** [df.mean()]: per column, NaN for a column without values. *)
Definition df_mean (df : DataFrame) : list Cell :=
  map (fun j => mean_of (column_values df j)) (seq 0 (length (columns df))).

(** The rows in which columns [j] and [k] are both present. *)
Definition column_pairs (df : DataFrame) (j k : nat) : list (F * F) :=
  flat_map (fun r => match nth_error (snd r) j, nth_error (snd r) k with
                     | Some (Some x), Some (Some y) => [(x, y)]
                     | _, _ => []
                     end) (rows df).

Definition cov_of (ps : list (F * F)) : Cell :=
  if (len ps <? 2)%Z then None
  else
    let n := of_int (len ps) in
    let mx := fdiv (fsum (map fst ps)) n in
    let my := fdiv (fsum (map snd ps)) n in
    Some (fdiv (fsum (map (fun p => fmul (fsub (fst p) mx) (fsub (snd p) my)) ps))
               (of_int (len ps - 1))).

(** [df.cov()]: the unbiased sample covariance, NaN below two rows. *)
Definition df_cov (df : DataFrame) : list (list Cell) :=
  let js := seq 0 (length (columns df)) in
  map (fun j => map (fun k => cov_of (column_pairs df j k)) js) js.

(** [a[:, i]]. *)
Definition column (a : ndarray) (i : nat) : result (list F) :=
  if (i <? nd_cols a)%nat
  then Ok (map (fun r => nth i r (of_int 0)) (nd_rows a))
  else Raise IndexError.

(** [np.var(a, ddof)] and [np.std(a)] (numpy's default is [ddof = 0]). *)
Definition np_var (ddof : Z) (a : list F) : F :=
  let arrmean := fdiv (fsum a) (of_int (len a)) in
  let x := map (fun v => fsub v arrmean) a in
  fdiv (fsum (map (fun v => fmul v v) x)) (of_int (len a - ddof)).

Definition np_std (a : list F) : F := fsqrt (np_var 0 a).

End Frames.

Arguments DataFrame F : clear implicits.
Arguments ndarray F : clear implicits.
Arguments Cell F : clear implicits.

(** The library calls of [run_monte_carlo]. *)
Class Libraries (F : Type) : Type := {
  RandomState : Type;          (* the generator behind np.random *)
  Market : Type;               (* what the data provider would answer *)
  (* yf.download(tickers, start=, end=): one frame per price field *)
  yf_download : Market -> list string -> string -> string ->
                result (list (string * DataFrame F));
  (* np.random.multivariate_normal(mean, cov, size) *)
  multivariate_normal : list (Cell F) -> list (list (Cell F)) -> Z ->
                        RandomState -> result (ndarray F) * RandomState;
  (* the generator state np.random.seed(k) installs *)
  seed_state : Z -> RandomState
}.

Section Engine.
Context {F : Type} {ops : FloatOps F} {libs : Libraries F}.

(** What a run reads and changes outside itself: the state of numpy's
    global generator, and the market data behind the provider. *)
Record World : Type := mkWorld {
  np_random : RandomState;
  market : Market
}.


(** One row of the returned table (the dict of lines 54-65). *)
Record OutcomeRow : Type := mkRow {
  id : Z;
  ticker : string;
  simulation_id : Z;
  year : Z;
  starting_value : F;
  ending_value : F;
  annual_return : F;
  cumulative_return : F;
  volatility : F;
  probability : F
}.

(** [data[key]] on the frame [yf.download] returns. *)
Fixpoint getitem (data : list (string * DataFrame F)) (key : string)
  : result (DataFrame F) :=
  match data with
  | [] => Raise (KeyError key)
  | (k, df) :: data' => if String.eqb k key then Ok df else getitem data' key
  end.

(** Python's [x / n] for an int [n]. *)
Definition truediv (x : F) (n : Z) : result F :=
  if (n =? 0)%Z then Raise ZeroDivisionError else Ok (fdiv x (of_int n)).

Section Run.
Variable tickers : list string.
Variable portfolio_value : F.
Variable years : Z.
Variable num_simulations : Z.

(** The body of the inner loop, lines 44-65.  Of its divisions,
    [portfolio_value / len(tickers)], [1 / years] and
    [1 / num_simulations] are Python's and raise on a zero divisor;
    [ending_val / starting_val] is numpy's and does not. *)
Definition ticker_row (sim : Z) (simulated : ndarray F)
           (i : nat) (tk : string) (row_id : Z) : result OutcomeRow :=
  starting_val <- truediv portfolio_value (len tickers) ;;
  ticker_returns <- column simulated i ;;
  let growth_factors := map fexp ticker_returns in
  let ending_val := fmul starting_val (fprod growth_factors) in
  inv_years <- truediv (of_int 1) years ;;
  let annual_return := fsub (fpow (fdiv ending_val starting_val) inv_years)
                            (of_int 1) in
  let cumulative_return := fsub (fdiv ending_val starting_val) (of_int 1) in
  let volatility := fmul (np_std ticker_returns) (fsqrt (of_int 252)) in
  probability <- truediv (of_int 1) num_simulations ;;
  Ok (mkRow row_id tk sim years starting_val ending_val annual_return
            cumulative_return volatility probability).

(** [for i, ticker in enumerate(tickers)]: the state is the list
    [results] and the counter [row_id]. *)
Fixpoint ticker_loop (sim : Z) (simulated : ndarray F)
         (items : list (nat * string)) (results : list OutcomeRow)
         (row_id : Z) : result (list OutcomeRow * Z) :=
  match items with
  | [] => Ok (results, row_id)
  | (i, tk) :: items' =>
      row <- ticker_row sim simulated i tk row_id ;;
      ticker_loop sim simulated items' (results ++ [row]) (row_id + 1)
  end.

(** [for sim in range(num_simulations)]: one draw per simulation, from
    the generator state the draw before left. *)
Fixpoint sim_loop (mean_returns : list (Cell F))
         (cov_matrix : list (list (Cell F))) (num_days : Z)
         (sims : list Z) (results : list OutcomeRow) (row_id : Z)
         (g : RandomState) : result (list OutcomeRow * Z) * RandomState :=
  match sims with
  | [] => (Ok (results, row_id), g)
  | sim :: sims' =>
      match multivariate_normal mean_returns cov_matrix num_days g with
      | (Raise e, g') => (Raise e, g')
      | (Ok simulated, g') =>
          match ticker_loop sim simulated (enumerate tickers)
                            results row_id with
          | Raise e => (Raise e, g')
          | Ok (results', row_id') =>
              sim_loop mean_returns cov_matrix num_days sims'
                       results' row_id' g'
          end
      end
  end.

(** Lines 24-69, from the downloaded adjusted closes on. *)
Definition simulate (adj_close : DataFrame F) (g : RandomState)
  : result (list OutcomeRow) * RandomState :=
  let price_data := dropna adj_close in
  let daily_returns :=
    dropna (np_log (frame_div price_data (shift1 price_data))) in
  let mean_returns := df_mean daily_returns in
  let cov_matrix := df_cov daily_returns in
  let num_days := (years * 252)%Z in
  match sim_loop mean_returns cov_matrix num_days
                 (range num_simulations) [] 0%Z g with
  | (Ok (results, _), g') => (Ok results, g')
  | (Raise e, g') => (Raise e, g')
  end.

Definition run_monte_carlo (start_date end_date : string) (w : World)
  : result (list OutcomeRow) * World :=
  match data <- yf_download (market w) tickers start_date end_date ;;
        getitem data "Adj Close" with
  | Raise e => (Raise e, w)
  | Ok adj_close =>
      let (r, g') := simulate adj_close (np_random w) in
      (r, mkWorld g' (market w))
  end.

(** ** Closed forms of the two loops *)

(** The column [i] of an array, without the bounds check. *)
Definition col_at (a : ndarray F) (i : nat) : list F :=
  map (fun r => nth i r (of_int 0)) (nd_rows a).

(** The row the loop body builds when none of its divisions raises. *)
Definition outcome_row (sim : Z) (ticker_returns : list F) (tk : string)
           (row_id : Z) : OutcomeRow :=
  let starting_val := fdiv portfolio_value (of_int (len tickers)) in
  let ending_val := fmul starting_val (fprod (map fexp ticker_returns)) in
  mkRow row_id tk sim years starting_val ending_val
        (fsub (fpow (fdiv ending_val starting_val)
                    (fdiv (of_int 1) (of_int years))) (of_int 1))
        (fsub (fdiv ending_val starting_val) (of_int 1))
        (fmul (np_std ticker_returns) (fsqrt (of_int 252)))
        (fdiv (of_int 1) (of_int num_simulations)).

(** The rows one simulation appends: tickers [l], the first of them at
    column [k] of the array and with id [row_id]. *)
Fixpoint rows_from (sim : Z) (a : ndarray F) (k : nat) (l : list string)
         (row_id : Z) : list OutcomeRow :=
  match l with
  | [] => []
  | tk :: l' =>
      outcome_row sim (col_at a k) tk row_id
        :: rows_from sim a (S k) l' (row_id + 1)
  end.

(** The daily log returns the model is estimated from (lines 24-27). *)
Definition daily_returns_of (adj_close : DataFrame F) : DataFrame F :=
  let price_data := dropna adj_close in
  dropna (np_log (frame_div price_data (shift1 price_data))).

Section Draws.
Variable mean_returns : list (Cell F).
Variable cov_matrix : list (list (Cell F)).
Variable num_days : Z.

(** The arrays of the first [n] draws from generator state [g] (up to the
    first draw that raises), and the state after them. *)
Fixpoint paths (n : nat) (g : RandomState) : list (ndarray F) :=
  match n with
  | O => []
  | S n' =>
      match multivariate_normal mean_returns cov_matrix num_days g with
      | (Ok a, g') => a :: paths n' g'
      | (Raise _, _) => []
      end
  end.

Fixpoint final_state (n : nat) (g : RandomState) : RandomState :=
  match n with
  | O => g
  | S n' =>
      match multivariate_normal mean_returns cov_matrix num_days g with
      | (Ok _, g') => final_state n' g'
      | (Raise _, g') => g'
      end
  end.

(** The table built from the arrays [arrs] of simulations [k], [k+1], ... *)
Fixpoint table_from (k : nat) (arrs : list (ndarray F)) : list OutcomeRow :=
  match arrs with
  | [] => []
  | a :: arrs' =>
      rows_from (Z.of_nat k) a 0 tickers (Z.of_nat k * len tickers)
        ++ table_from (S k) arrs'
  end.

(** Every draw succeeds, with one column per ticker at least and
    [num_days] rows: numpy's contract for a usable model. *)
Definition sampling_ok : Prop :=
  forall g, exists a g',
    multivariate_normal mean_returns cov_matrix num_days g = (Ok a, g')
    /\ (length tickers <= nd_cols a)%nat
    /\ length (nd_rows a) = Z.to_nat num_days.

End Draws.

(** A valid invocation: positive horizon and simulation count, prices
    delivered, and a model the sampler accepts. *)
Definition valid_invocation (start_date end_date : string) (w : World)
           (adj_close : DataFrame F) : Prop :=
  (0 < years)%Z /\ (0 < num_simulations)%Z
  /\ (data <- yf_download (market w) tickers start_date end_date ;;
      getitem data "Adj Close") = Ok adj_close
  /\ sampling_ok (df_mean (daily_returns_of adj_close))
                 (df_cov (daily_returns_of adj_close)) (years * 252).

(** The table and the generator state a valid run ends with. *)
Definition expected_table (adj_close : DataFrame F) (g : RandomState)
  : list OutcomeRow :=
  table_from 0 (paths (df_mean (daily_returns_of adj_close))
                      (df_cov (daily_returns_of adj_close)) (years * 252)
                      (Z.to_nat num_simulations) g).

Definition expected_state (adj_close : DataFrame F) (g : RandomState)
  : RandomState :=
  final_state (df_mean (daily_returns_of adj_close))
              (df_cov (daily_returns_of adj_close)) (years * 252)
              (Z.to_nat num_simulations) g.

(** *** The loop body *)

Lemma column_ok (a : ndarray F) (i : nat) :
  (i < nd_cols a)%nat -> column a i = Ok (col_at a i).
Proof.
  intros Hi. unfold column.
  apply Nat.ltb_lt in Hi. now rewrite Hi.
Qed.

Lemma ticker_row_ok (sim : Z) (a : ndarray F) (i : nat) (tk : string)
      (row_id : Z) :
  tickers <> [] -> years <> 0%Z -> num_simulations <> 0%Z ->
  (i < nd_cols a)%nat ->
  ticker_row sim a i tk row_id = Ok (outcome_row sim (col_at a i) tk row_id).
Proof.
  intros Ht Hy Hn Hi. unfold ticker_row, truediv.
  assert (Hlen : (len tickers =? 0)%Z = false).
  { apply Z.eqb_neq. unfold len. destruct tickers; [easy | simpl; lia]. }
  rewrite Hlen. cbn [bind].
  rewrite (column_ok _ Hi). cbn [bind].
  apply Z.eqb_neq in Hy, Hn. rewrite Hy, Hn. reflexivity.
Qed.

Lemma ticker_loop_ok (sim : Z) (a : ndarray F) :
  tickers <> [] -> years <> 0%Z -> num_simulations <> 0%Z ->
  forall (l : list string) (k : nat) (results : list OutcomeRow) (row_id : Z),
    (k + length l <= nd_cols a)%nat ->
    ticker_loop sim a (combine (seq k (length l)) l) results row_id
    = Ok (results ++ rows_from sim a k l row_id, (row_id + len l)%Z).
Proof.
  intros Ht Hy Hn l. induction l as [| tk l IH]; intros k results row_id Hk.
  - cbn. now rewrite app_nil_r, Z.add_0_r.
  - cbn [length seq combine ticker_loop].
    rewrite ticker_row_ok by (auto; cbn in Hk; lia).
    cbn [bind]. rewrite IH by (cbn in Hk; lia).
    rewrite <- app_assoc. cbn [app rows_from].
    do 2 f_equal. unfold len. cbn [length]. lia.
Qed.

Lemma rows_from_length (sim : Z) (a : ndarray F) (l : list string) :
  forall k row_id, length (rows_from sim a k l row_id) = length l.
Proof.
  induction l as [| tk l IH]; intros; cbn; [reflexivity | now rewrite IH].
Qed.

Lemma rows_from_nth (sim : Z) (a : ndarray F) (l : list string) :
  forall k row_id i tk,
    nth_error l i = Some tk ->
    nth_error (rows_from sim a k l row_id) i
    = Some (outcome_row sim (col_at a (k + i)) tk (row_id + Z.of_nat i)).
Proof.
  induction l as [| t l IH]; intros k row_id i tk Hi.
  - destruct i; discriminate.
  - destruct i as [| i]; cbn in *.
    + injection Hi as ->. now rewrite Nat.add_0_r, Z.add_0_r.
    + rewrite (IH _ _ _ _ Hi).
      replace (S k + i)%nat with (k + S i)%nat by lia.
      replace (row_id + 1 + Z.of_nat i)%Z with (row_id + Z.of_nat (S i))%Z by lia.
      reflexivity.
Qed.

Lemma rows_from_In (sim : Z) (a : ndarray F) (l : list string) :
  forall k row_id row,
    In row (rows_from sim a k l row_id) ->
    exists i tk, nth_error l i = Some tk
                 /\ row = outcome_row sim (col_at a (k + i)) tk
                                      (row_id + Z.of_nat i).
Proof.
  induction l as [| t l IH]; intros k row_id row Hin; cbn in Hin.
  - contradiction.
  - destruct Hin as [<- | Hin].
    + exists 0%nat, t. now rewrite Nat.add_0_r, Z.add_0_r.
    + destruct (IH _ _ _ Hin) as (i & tk & Hi & ->).
      exists (S i), tk. split; [exact Hi |].
      replace (S k + i)%nat with (k + S i)%nat by lia.
      replace (row_id + 1 + Z.of_nat i)%Z with (row_id + Z.of_nat (S i))%Z by lia.
      reflexivity.
Qed.

Lemma rows_from_id (sim : Z) (a : ndarray F) (l : list string) :
  forall k row_id j row,
    nth_error (rows_from sim a k l row_id) j = Some row ->
    id row = (row_id + Z.of_nat j)%Z.
Proof.
  induction l as [| t l IH]; intros k row_id j row Hj.
  - destruct j; discriminate.
  - destruct j as [| j]; cbn in Hj.
    + injection Hj as <-. cbn. lia.
    + rewrite (IH _ _ _ _ Hj). lia.
Qed.

Lemma ticker_loop_enumerate (sim : Z) (a : ndarray F)
      (results : list OutcomeRow) (row_id : Z) :
  years <> 0%Z -> num_simulations <> 0%Z ->
  (length tickers <= nd_cols a)%nat ->
  ticker_loop sim a (enumerate tickers) results row_id
  = Ok (results ++ rows_from sim a 0 tickers row_id, (row_id + len tickers)%Z).
Proof.
  intros Hy Hn Hc. unfold enumerate.
  destruct (list_eq_dec string_dec tickers []) as [He | He].
  - rewrite He. cbn. now rewrite app_nil_r, Z.add_0_r.
  - now apply ticker_loop_ok.
Qed.

(** *** The outer loop *)

Section DrawsFacts.
Variable mean_returns : list (Cell F).
Variable cov_matrix : list (list (Cell F)).
Variable num_days : Z.
Hypothesis Hsampling : sampling_ok mean_returns cov_matrix num_days.

Lemma paths_length (n : nat) :
  forall g, length (paths mean_returns cov_matrix num_days n g) = n.
Proof.
  induction n as [| n IH]; intros g; cbn; [reflexivity |].
  destruct (Hsampling g) as (a & g' & -> & _). cbn. now rewrite IH.
Qed.

Lemma paths_shape (n : nat) :
  forall g a,
    In a (paths mean_returns cov_matrix num_days n g) ->
    (length tickers <= nd_cols a)%nat
    /\ length (nd_rows a) = Z.to_nat num_days.
Proof.
  induction n as [| n IH]; intros g a Hin; cbn in Hin; [contradiction |].
  destruct (Hsampling g) as (a0 & g' & Heq & Hshape). rewrite Heq in Hin.
  destruct Hin as [<- | Hin]; [exact Hshape | eauto].
Qed.

Lemma sim_loop_ok :
  years <> 0%Z -> num_simulations <> 0%Z ->
  forall (n k : nat) (results : list OutcomeRow) (g : RandomState),
    sim_loop mean_returns cov_matrix num_days (map Z.of_nat (seq k n))
             results (Z.of_nat k * len tickers) g
    = (Ok (results ++ table_from k (paths mean_returns cov_matrix num_days n g),
           (Z.of_nat (k + n) * len tickers)%Z),
       final_state mean_returns cov_matrix num_days n g).
Proof.
  intros Hy Hn n. induction n as [| n IH]; intros k results g.
  - cbn. now rewrite app_nil_r, Nat.add_0_r.
  - cbn [seq map sim_loop paths final_state].
    destruct (Hsampling g) as (a & g' & -> & Hcols & _).
    rewrite ticker_loop_enumerate by assumption.
    replace (Z.of_nat k * len tickers + len tickers)%Z
      with (Z.of_nat (S k) * len tickers)%Z by lia.
    rewrite IH. cbn [table_from]. rewrite <- app_assoc.
    do 3 f_equal. lia.
Qed.

End DrawsFacts.

Lemma table_from_length (arrs : list (ndarray F)) :
  forall k, length (table_from k arrs) = (length arrs * length tickers)%nat.
Proof.
  induction arrs as [| a arrs IH]; intros k; cbn; [reflexivity |].
  now rewrite length_app, rows_from_length, IH.
Qed.

Lemma table_from_id (arrs : list (ndarray F)) :
  forall k j row,
    nth_error (table_from k arrs) j = Some row ->
    id row = (Z.of_nat k * len tickers + Z.of_nat j)%Z.
Proof.
  induction arrs as [| a arrs IH]; intros k j row Hj.
  - destruct j; discriminate.
  - cbn [table_from] in Hj.
    destruct (Nat.lt_ge_cases j (length tickers)) as [Hlt | Hge].
    + rewrite nth_error_app1 in Hj by now rewrite rows_from_length.
      now apply rows_from_id in Hj.
    + rewrite nth_error_app2 in Hj by now rewrite rows_from_length.
      rewrite rows_from_length in Hj. apply IH in Hj. rewrite Hj.
      unfold len. lia.
Qed.

Lemma table_from_nth (arrs : list (ndarray F)) :
  forall k s a i tk,
    nth_error arrs s = Some a -> nth_error tickers i = Some tk ->
    nth_error (table_from k arrs) (s * length tickers + i)
    = Some (outcome_row (Z.of_nat (k + s)) (col_at a i) tk
                        (Z.of_nat (k + s) * len tickers + Z.of_nat i)).
Proof.
  induction arrs as [| a0 arrs IH]; intros k s a i tk Hs Hi.
  - destruct s; discriminate.
  - assert (Hlt : (i < length tickers)%nat)
      by (apply nth_error_Some; congruence).
    destruct s as [| s]; cbn [table_from].
    + cbn in Hs. injection Hs as ->. cbn [Nat.mul Nat.add].
      rewrite nth_error_app1 by now rewrite rows_from_length.
      rewrite Nat.add_0_r. erewrite rows_from_nth by eassumption. reflexivity.
    + cbn in Hs.
      rewrite nth_error_app2 by (rewrite rows_from_length; cbn; lia).
      rewrite rows_from_length.
      replace (S s * length tickers + i - length tickers)%nat
        with (s * length tickers + i)%nat by (cbn; lia).
      rewrite (IH (S k) s a i tk Hs Hi).
      replace (S k + s)%nat with (k + S s)%nat by lia. reflexivity.
Qed.

Lemma table_from_In (arrs : list (ndarray F)) :
  forall k row,
    In row (table_from k arrs) ->
    exists s a i tk,
      nth_error arrs s = Some a /\ nth_error tickers i = Some tk
      /\ row = outcome_row (Z.of_nat (k + s)) (col_at a i) tk
                           (Z.of_nat (k + s) * len tickers + Z.of_nat i).
Proof.
  induction arrs as [| a0 arrs IH]; intros k row Hin; cbn in Hin.
  - contradiction.
  - apply in_app_or in Hin. destruct Hin as [Hin | Hin].
    + apply rows_from_In in Hin. destruct Hin as (i & tk & Hi & ->).
      exists 0%nat, a0, i, tk. now rewrite Nat.add_0_r.
    + destruct (IH _ _ Hin) as (s & a & i & tk & Hs & Hi & ->).
      exists (S s), a, i, tk. repeat split; try assumption.
      replace (k + S s)%nat with (S k + s)%nat by lia. reflexivity.
Qed.

(** *** The whole run *)

Lemma range_seq (n : Z) : range n = map Z.of_nat (seq 0 (Z.to_nat n)).
Proof. reflexivity. Qed.

Lemma run_monte_carlo_valid (start_date end_date : string) (w : World)
      (adj_close : DataFrame F) :
  valid_invocation start_date end_date w adj_close ->
  run_monte_carlo start_date end_date w
  = (Ok (expected_table adj_close (np_random w)),
     mkWorld (expected_state adj_close (np_random w)) (market w)).
Proof.
  intros (Hy & Hn & Hdl & Hs).
  unfold run_monte_carlo. rewrite Hdl. unfold simulate.
  fold (daily_returns_of adj_close). cbv zeta.
  rewrite range_seq.
  change 0%Z with (Z.of_nat 0 * len tickers)%Z at 1.
  rewrite (sim_loop_ok Hs) by lia.
  reflexivity.
Qed.

Lemma expected_table_length (adj_close : DataFrame F) (g : RandomState) :
  sampling_ok (df_mean (daily_returns_of adj_close))
              (df_cov (daily_returns_of adj_close)) (years * 252) ->
  length (expected_table adj_close g)
  = (Z.to_nat num_simulations * length tickers)%nat.
Proof.
  intros Hs. unfold expected_table.
  now rewrite table_from_length, (paths_length Hs).
Qed.

Lemma valid_run_length
      (start_date end_date : string) (w : World) (adj_close : DataFrame F) :
  valid_invocation start_date end_date w adj_close ->
  exists table w',
    run_monte_carlo start_date end_date w = (Ok table, w')
    /\ len table = (num_simulations * len tickers)%Z.
Proof.
  intros Hv. pose proof Hv as (Hy & Hn & Hdl & Hs).
  eexists _, _. split; [apply (run_monte_carlo_valid Hv) |].
  unfold len. rewrite expected_table_length by exact Hs. lia.
Qed.

(** C1. A valid invocation returns, and the table it returns has
    [num_simulations * len(tickers)] rows: for every simulation index and
    every ticker index there is a row, and there is no other row. *)
Theorem run_monte_carlo_row_count
        (start_date end_date : string) (w : World) (adj_close : DataFrame F) :
  valid_invocation start_date end_date w adj_close ->
  exists table w',
    run_monte_carlo start_date end_date w = (Ok table, w')
    /\ len table = (num_simulations * len tickers)%Z
    /\ (forall s i, (s < Z.to_nat num_simulations)%nat ->
                    (i < length tickers)%nat ->
                    exists row, nth_error table (s * length tickers + i) = Some row
                                /\ simulation_id row = Z.of_nat s
                                /\ nth_error tickers i = Some (ticker row)).
Proof.
  intros Hv. pose proof Hv as (Hy & Hn & Hdl & Hs).
  eexists _, _. split; [apply (run_monte_carlo_valid Hv) |]. split.
  - unfold len. rewrite expected_table_length by exact Hs. lia.
  - intros s i Hlt Hi.
    destruct (nth_error tickers i) as [tk |] eqn:Htk;
      [| apply nth_error_None in Htk; lia].
    destruct (nth_error (paths (df_mean (daily_returns_of adj_close))
                               (df_cov (daily_returns_of adj_close))
                               (years * 252)
                               (Z.to_nat num_simulations) (np_random w)) s)
      as [a |] eqn:Ha;
      [| apply nth_error_None in Ha; rewrite (paths_length Hs) in Ha; lia].
    eexists. unfold expected_table.
    erewrite table_from_nth by eassumption. cbn. auto.
Qed.

(** C2. In the table of a valid run the [id] of the row at position [j] is
    [j] (so the ids are 0, 1, 2, ... in emission order, strictly
    increasing and without gaps), and the row of simulation [s] and ticker
    index [i] is the one at position, and with id, [s * N + i]. *)
Theorem run_monte_carlo_ids
        (start_date end_date : string) (w : World) (adj_close : DataFrame F) :
  valid_invocation start_date end_date w adj_close ->
  exists table w',
    run_monte_carlo start_date end_date w = (Ok table, w')
    /\ (forall j row, nth_error table j = Some row -> id row = Z.of_nat j)
    /\ (forall s i tk, (s < Z.to_nat num_simulations)%nat ->
                       nth_error tickers i = Some tk ->
                       exists row,
                         nth_error table (s * length tickers + i) = Some row
                         /\ simulation_id row = Z.of_nat s
                         /\ ticker row = tk
                         /\ id row = (Z.of_nat s * len tickers + Z.of_nat i)%Z).
Proof.
  intros Hv. pose proof Hv as (Hy & Hn & Hdl & Hs).
  eexists _, _. split; [apply (run_monte_carlo_valid Hv) |]. split.
  - intros j row Hj. unfold expected_table in Hj.
    apply table_from_id in Hj. rewrite Hj. lia.
  - intros s i tk Hlt Htk.
    destruct (nth_error (paths (df_mean (daily_returns_of adj_close))
                               (df_cov (daily_returns_of adj_close))
                               (years * 252)
                               (Z.to_nat num_simulations) (np_random w)) s)
      as [a |] eqn:Ha;
      [| apply nth_error_None in Ha; rewrite (paths_length Hs) in Ha; lia].
    eexists. unfold expected_table.
    erewrite table_from_nth by eassumption. cbn. auto.
Qed.


(** [rets] are the simulated daily log returns behind [row], in a run
    that starts from generator state [g]: column [i] of the array drawn
    for the row's simulation, [i] being the index of the row's ticker in
    [tickers] (the code pairs tickers and columns by position). *)
Definition simulated_returns (adj_close : DataFrame F) (g : RandomState)
           (row : OutcomeRow) (rets : list F) : Prop :=
  exists s a i,
    nth_error (paths (df_mean (daily_returns_of adj_close))
                     (df_cov (daily_returns_of adj_close)) (years * 252)
                     (Z.to_nat num_simulations) g) s = Some a
    /\ simulation_id row = Z.of_nat s
    /\ nth_error tickers i = Some (ticker row)
    /\ id row = (Z.of_nat s * len tickers + Z.of_nat i)%Z
    /\ column a i = Ok rets
    /\ length rets = Z.to_nat (years * 252).

Lemma expected_table_rows (adj_close : DataFrame F) (g : RandomState)
      (row : OutcomeRow) :
  sampling_ok (df_mean (daily_returns_of adj_close))
              (df_cov (daily_returns_of adj_close)) (years * 252) ->
  In row (expected_table adj_close g) ->
  exists rets,
    simulated_returns adj_close g row rets
    /\ row = outcome_row (simulation_id row) rets (ticker row) (id row).
Proof.
  intros Hs Hin. unfold expected_table in Hin.
  apply table_from_In in Hin.
  destruct Hin as (s & a & i & tk & Ha & Hi & ->).
  destruct (paths_shape Hs _ _ _ (nth_error_In _ _ Ha)) as [Hcols Hrows].
  assert (Hlt : (i < length tickers)%nat)
    by (apply nth_error_Some; congruence).
  exists (col_at a i). split; [| reflexivity].
  exists s, a, i. cbn [simulation_id ticker id outcome_row Nat.add].
  repeat split; try assumption.
  - apply column_ok. lia.
  - unfold col_at. now rewrite length_map.
Qed.

(** In every interpretation of the float operations, the fields of a row
    of a valid run are the expressions of the loop body over the row's
    simulated returns. *)
Lemma valid_run_rows_exact
      (start_date end_date : string) (w : World) (adj_close : DataFrame F)
      (row : OutcomeRow) :
  valid_invocation start_date end_date w adj_close ->
  In row (expected_table adj_close (np_random w)) ->
  exists rets,
    simulated_returns adj_close (np_random w) row rets
    /\ year row = years
    /\ starting_value row = fdiv portfolio_value (of_int (len tickers))
    /\ ending_value row
       = fmul (starting_value row) (fprod (map fexp rets))
    /\ annual_return row
       = fsub (fpow (fdiv (ending_value row) (starting_value row))
                    (fdiv (of_int 1) (of_int years))) (of_int 1)
    /\ cumulative_return row
       = fsub (fdiv (ending_value row) (starting_value row)) (of_int 1)
    /\ volatility row = fmul (np_std rets) (fsqrt (of_int 252))
    /\ probability row = fdiv (of_int 1) (of_int num_simulations).
Proof.
  intros (_ & _ & _ & Hs) Hin.
  destruct (expected_table_rows _ _ _ Hs Hin) as (rets & Hrets & Hrow).
  exists rets. split; [exact Hrets |].
  rewrite Hrow. cbn. repeat split.
Qed.

(** *** Out-of-range parameters and missing data *)

(** Ticker column [j] of the downloaded frame is NaN on every date. *)
Definition all_missing (adj_close : DataFrame F) (j : nat) : Prop :=
  (j < length (columns adj_close))%nat
  /\ forall r, In r (rows adj_close) -> nth_error (snd r) j = Some None.

Lemma range_nonpos (n : Z) : (n <= 0)%Z -> range n = [].
Proof.
  intros Hn. unfold range. now replace (Z.to_nat n) with 0%nat by lia.
Qed.

Lemma range_pos (n : Z) :
  (0 < n)%Z -> exists sims, range n = 0%Z :: sims.
Proof.
  intros Hn. unfold range.
  destruct (Z.to_nat n) as [| m] eqn:Hm; [lia |].
  cbn. eauto.
Qed.

Lemma enumerate_nonempty {A : Type} (l : list A) :
  l <> [] -> exists x items, enumerate l = (0%nat, x) :: items.
Proof.
  destruct l as [| x l]; [contradiction |]. intros _.
  unfold enumerate. cbn. eauto.
Qed.

Lemma len_nonempty {A : Type} (l : list A) :
  l <> [] -> (len l =? 0)%Z = false.
Proof.
  destruct l; [contradiction |]. intros _.
  apply Z.eqb_neq. unfold len. cbn. lia.
Qed.

Lemma forallb_notna_missing (l : list (Cell F)) :
  forall j, nth_error l j = Some None -> forallb notna l = false.
Proof.
  induction l as [| c l IH]; intros [| j] Hj; cbn in *; try discriminate.
  - now injection Hj as ->.
  - rewrite (IH _ Hj). apply andb_false_r.
Qed.

Lemma dropna_all_missing (adj_close : DataFrame F) (j : nat) :
  all_missing adj_close j -> rows (dropna adj_close) = [].
Proof.
  intros [_ Hall]. unfold dropna. cbn [rows].
  induction (rows adj_close) as [| r rs IH]; cbn; [reflexivity |].
  erewrite forallb_notna_missing by (apply Hall; now left).
  apply IH. intros r' Hr'. apply Hall. now right.
Qed.

Lemma daily_returns_of_empty (adj_close : DataFrame F) :
  rows (dropna adj_close) = [] ->
  rows (daily_returns_of adj_close) = []
  /\ columns (daily_returns_of adj_close) = columns adj_close.
Proof.
  intros He. unfold daily_returns_of, np_log, frame_div, shift1.
  cbv zeta. rewrite He. cbn. auto.
Qed.

Lemma map_const_seq {A : Type} (x : A) (n : nat) :
  forall k, map (fun _ => x) (seq k n) = repeat x n.
Proof.
  induction n as [| n IH]; intros k; cbn; [reflexivity | now rewrite IH].
Qed.

Lemma df_mean_empty (df : DataFrame F) :
  rows df = [] -> df_mean df = repeat None (length (columns df)).
Proof.
  intros He. unfold df_mean, column_values. rewrite He. cbn.
  apply map_const_seq.
Qed.

Lemma df_cov_empty (df : DataFrame F) :
  rows df = [] ->
  df_cov df = repeat (repeat None (length (columns df))) (length (columns df)).
Proof.
  intros He. unfold df_cov, column_pairs. rewrite He. cbn.
  rewrite (map_const_seq None). apply map_const_seq.
Qed.

Lemma run_monte_carlo_no_simulations
      (start_date end_date : string) (w : World) (adj_close : DataFrame F) :
  (data <- yf_download (market w) tickers start_date end_date ;;
   getitem data "Adj Close") = Ok adj_close ->
  (num_simulations <= 0)%Z ->
  run_monte_carlo start_date end_date w
  = (Ok [], mkWorld (np_random w) (market w)).
Proof.
  intros Hdl Hn. unfold run_monte_carlo. rewrite Hdl.
  unfold simulate. cbv zeta. now rewrite (range_nonpos Hn).
Qed.

Lemma run_monte_carlo_first_draw_raises
      (start_date end_date : string) (w : World) (adj_close : DataFrame F)
      (e : exception) (g' : RandomState) :
  (data <- yf_download (market w) tickers start_date end_date ;;
   getitem data "Adj Close") = Ok adj_close ->
  (0 < num_simulations)%Z ->
  multivariate_normal (df_mean (daily_returns_of adj_close))
                      (df_cov (daily_returns_of adj_close))
                      (years * 252) (np_random w) = (Raise e, g') ->
  run_monte_carlo start_date end_date w = (Raise e, mkWorld g' (market w)).
Proof.
  intros Hdl Hn Hdraw. unfold run_monte_carlo. rewrite Hdl.
  unfold simulate. fold (daily_returns_of adj_close). cbv zeta.
  destruct (range_pos Hn) as [sims ->]. cbn [sim_loop].
  now rewrite Hdraw.
Qed.

(** C3 (as the code has it). [run_monte_carlo] checks none of its
    parameters.  The download is its first step, and a failure of it is
    what the caller sees, whatever the parameters.  With
    [num_simulations <= 0] the run returns the empty table and draws
    nothing; with [years = 0], a simulation and a ticker to run, the first
    path is drawn and the run then stops at [1 / years] with
    ZeroDivisionError; an exception of the first draw (numpy's, for a
    negative [years]) is the outcome of the run; with an empty [tickers]
    a run that is valid otherwise returns the empty table;
    [portfolio_value] is never compared with anything: a run that is
    valid but for its sign returns its table, with that value divided
    among the tickers. *)
Theorem run_monte_carlo_no_validation
        (start_date end_date : string) (w : World) :
  (forall e,
      (data <- yf_download (market w) tickers start_date end_date ;;
       getitem data "Adj Close") = Raise e ->
      run_monte_carlo start_date end_date w = (Raise e, w))
  /\ (forall adj_close,
        (data <- yf_download (market w) tickers start_date end_date ;;
         getitem data "Adj Close") = Ok adj_close ->
        (num_simulations <= 0)%Z ->
        run_monte_carlo start_date end_date w
        = (Ok [], mkWorld (np_random w) (market w)))
  /\ (forall adj_close a g',
        (data <- yf_download (market w) tickers start_date end_date ;;
         getitem data "Adj Close") = Ok adj_close ->
        (0 < num_simulations)%Z -> tickers <> [] -> years = 0%Z ->
        multivariate_normal (df_mean (daily_returns_of adj_close))
                            (df_cov (daily_returns_of adj_close))
                            0 (np_random w) = (Ok a, g') ->
        (0 < nd_cols a)%nat ->
        run_monte_carlo start_date end_date w
        = (Raise ZeroDivisionError, mkWorld g' (market w)))
  /\ (forall adj_close e g',
        (data <- yf_download (market w) tickers start_date end_date ;;
         getitem data "Adj Close") = Ok adj_close ->
        (0 < num_simulations)%Z ->
        multivariate_normal (df_mean (daily_returns_of adj_close))
                            (df_cov (daily_returns_of adj_close))
                            (years * 252) (np_random w) = (Raise e, g') ->
        run_monte_carlo start_date end_date w
        = (Raise e, mkWorld g' (market w)))
  /\ (forall adj_close,
        valid_invocation start_date end_date w adj_close ->
        exists table w',
          run_monte_carlo start_date end_date w = (Ok table, w')
          /\ (tickers = [] -> table = [])
          /\ forall row, In row table ->
                         starting_value row
                         = fdiv portfolio_value (of_int (len tickers))).
Proof.
  split; [| split; [| split; [| split]]].
  - intros e He. unfold run_monte_carlo. now rewrite He.
  - intros adj_close Hdl Hn.
    eapply run_monte_carlo_no_simulations; eassumption.
  - intros adj_close a g' Hdl Hn Ht Hy Hdraw Hcols.
    unfold run_monte_carlo. rewrite Hdl.
    unfold simulate. fold (daily_returns_of adj_close). cbv zeta.
    destruct (range_pos Hn) as [sims ->]. cbn [sim_loop].
    rewrite Hy. cbn [Z.mul]. rewrite Hdraw.
    destruct (enumerate_nonempty Ht) as (tk & items & ->).
    cbn [ticker_loop]. unfold ticker_row, truediv.
    rewrite (len_nonempty Ht). cbn [bind].
    rewrite column_ok by exact Hcols.
    cbn [bind]. rewrite Hy. reflexivity.
  - intros adj_close e g' Hdl Hn Hdraw.
    eapply run_monte_carlo_first_draw_raises; eassumption.
  - intros adj_close Hv.
    eexists _, _. split; [apply (run_monte_carlo_valid Hv) |]. split.
    + intros Ht. destruct Hv as (_ & _ & _ & Hs).
      apply length_zero_iff_nil.
      rewrite expected_table_length by exact Hs.
      rewrite Ht. cbn. lia.
    + intros row Hin. unfold expected_table in Hin.
      apply table_from_In in Hin.
      destruct Hin as (s & a & i & tk & _ & _ & ->). reflexivity.
Qed.

(** C4 (as the code has it). When a requested ticker has no price on any
    date, [dropna()] leaves no row, the mean vector and the covariance
    matrix are NaN throughout, and the run goes on to the sampler with
    them.  No error about the ticker is raised: without simulations the
    empty table is returned; otherwise an exception of the first draw is
    the outcome of the run (and no table is returned), and if the sampler
    accepts the NaN model the run returns all its rows. *)
Theorem run_monte_carlo_all_missing
        (start_date end_date : string) (w : World) (adj_close : DataFrame F)
        (j : nat) :
  (data <- yf_download (market w) tickers start_date end_date ;;
   getitem data "Adj Close") = Ok adj_close ->
  all_missing adj_close j ->
  let n := length (columns adj_close) in
  let nan_mean := repeat (@None F) n in
  let nan_cov := repeat (repeat (@None F) n) n in
  rows (dropna adj_close) = []
  /\ df_mean (daily_returns_of adj_close) = nan_mean
  /\ df_cov (daily_returns_of adj_close) = nan_cov
  /\ ((num_simulations <= 0)%Z ->
      run_monte_carlo start_date end_date w
      = (Ok [], mkWorld (np_random w) (market w)))
  /\ ((0 < num_simulations)%Z ->
      forall e g',
        multivariate_normal nan_mean nan_cov (years * 252) (np_random w)
        = (Raise e, g') ->
        run_monte_carlo start_date end_date w
        = (Raise e, mkWorld g' (market w)))
  /\ ((0 < num_simulations)%Z -> (0 < years)%Z ->
      sampling_ok nan_mean nan_cov (years * 252) ->
      exists table w',
        run_monte_carlo start_date end_date w = (Ok table, w')
        /\ len table = (num_simulations * len tickers)%Z).
Proof.
  intros Hdl Hmiss n nan_mean nan_cov.
  pose proof (dropna_all_missing Hmiss) as Hdrop.
  destruct (@daily_returns_of_empty adj_close Hdrop) as [Hrows Hcols].
  assert (Hmean : df_mean (daily_returns_of adj_close) = nan_mean).
  { rewrite df_mean_empty by exact Hrows. now rewrite Hcols. }
  assert (Hcov : df_cov (daily_returns_of adj_close) = nan_cov).
  { rewrite df_cov_empty by exact Hrows. now rewrite Hcols. }
  repeat split; try assumption.
  - intros Hn. eapply run_monte_carlo_no_simulations; eassumption.
  - intros Hn e g' Hdraw.
    eapply run_monte_carlo_first_draw_raises; try eassumption.
    now rewrite Hmean, Hcov.
  - intros Hn Hy Hs.
    assert (Hv : valid_invocation start_date end_date w adj_close).
    { repeat split; try assumption. now rewrite Hmean, Hcov. }
    exact (valid_run_length Hv).
Qed.

End Run.
End Engine.

(** ** The engine over the real numbers *)

#[export] Instance R_ops : FloatOps R := {|
  fadd := Rplus;
  fsub := Rminus;
  fmul := Rmult;
  fdiv := Rdiv;
  fpow := Rpower;
  fexp := exp;
  flog := ln;
  fsqrt := sqrt;
  of_int := IZR
|}.

(** The quantities the specification names, written on their own. *)
Fixpoint Rsum (l : list R) : R :=
  match l with
  | [] => 0%R
  | x :: l' => (x + Rsum l')%R
  end.


Definition Rmean (l : list R) : R := (Rsum l / INR (length l))%R.

Definition squared_deviations (l : list R) : R :=
  Rsum (map (fun x => ((x - Rmean l) ^ 2)%R) l).

(** Standard deviation with denominator [n] (population) and [n - 1]
    (sample). *)
Definition population_stdev (l : list R) : R :=
  sqrt (squared_deviations l / INR (length l)).

Definition sample_stdev (l : list R) : R :=
  sqrt (squared_deviations l / (INR (length l) - 1)).

Lemma fold_left_Rplus (l : list R) :
  forall acc, fold_left Rplus l acc = (acc + Rsum l)%R.
Proof.
  induction l as [| x l IH]; intros acc; cbn.
  - ring.
  - rewrite IH. ring.
Qed.


Lemma fsum_Rsum (l : list R) : fsum l = Rsum l.
Proof. unfold fsum. cbn. rewrite fold_left_Rplus. ring. Qed.




Lemma of_int_len {A : Type} (l : list A) : IZR (len l) = INR (length l).
Proof. unfold len. now rewrite <- INR_IZR_INZ. Qed.

Lemma np_std_population (l : list R) : np_std l = population_stdev l.
Proof.
  unfold np_std, np_var, population_stdev, squared_deviations, Rmean.
  cbn [fsqrt fdiv fmul fsub of_int R_ops].
  rewrite Z.sub_0_r, of_int_len, !fsum_Rsum, map_map.
  do 3 f_equal. apply map_ext. intros x. ring.
Qed.

Lemma INR_to_nat (z : Z) : (0 <= z)%Z -> INR (Z.to_nat z) = IZR z.
Proof.
  intros Hz. now rewrite INR_IZR_INZ, Z2Nat.id.
Qed.

(** [np.std] is not the sample standard deviation: on the two returns
    0 and 2 it is 1, where the sample one is sqrt 2. *)
Lemma np_std_not_sample_stdev :
  np_std [0%R; 2%R] = 1%R /\ sample_stdev [0%R; 2%R] = R_sqrt.sqrt 2.
Proof.
  split.
  - rewrite np_std_population.
    unfold population_stdev, squared_deviations, Rmean. cbn.
    replace ((0 - (0 + (2 + 0)) / (1 + 1)) * ((0 - (0 + (2 + 0)) / (1 + 1)) * 1)
             + ((2 - (0 + (2 + 0)) / (1 + 1)) * ((2 - (0 + (2 + 0)) / (1 + 1)) * 1)
                + 0))%R with 2%R by field.
    replace (2 / (1 + 1))%R with 1%R by field. apply sqrt_1.
  - unfold sample_stdev, squared_deviations, Rmean. cbn.
    f_equal. field.
Qed.

Section RealEngine.
Context {libs : Libraries R}.
Variable tickers : list string.
Variable portfolio_value : R.
Variable years : Z.
Variable num_simulations : Z.





(** C7. In the table of a valid run every row's [volatility] is the
    population standard deviation of the row's [num_days] simulated daily
    log returns, the sum of squared deviations from their mean divided by
    [num_days = years * 252], times the square root of 252. *)
Theorem volatility_population_stdev
        (start_date end_date : string) (w : World) (adj_close : DataFrame R) :
  valid_invocation tickers years num_simulations start_date end_date w
                   adj_close ->
  exists table w',
    run_monte_carlo tickers portfolio_value years num_simulations
                    start_date end_date w = (Ok table, w')
    /\ forall row, In row table ->
         exists rets,
           simulated_returns tickers years num_simulations adj_close
                             (np_random w) row rets
           /\ volatility row
              = (population_stdev rets * R_sqrt.sqrt 252)%R
           /\ volatility row
              = (R_sqrt.sqrt (squared_deviations rets / IZR (years * 252))
                 * R_sqrt.sqrt 252)%R.
Proof.
  intros Hv. pose proof Hv as (Hy & Hn & Hdl & Hs).
  eexists _, _. split; [apply (run_monte_carlo_valid portfolio_value Hv) |].
  intros row Hin.
  destruct (expected_table_rows portfolio_value _ _ _ _ _ Hs Hin)
    as (rets & Hrets & Hrow).
  exists rets. split; [exact Hrets |].
  assert (Hvol : volatility row = (population_stdev rets * R_sqrt.sqrt 252)%R).
  { rewrite Hrow. cbn [volatility outcome_row].
    now rewrite np_std_population. }
  split; [exact Hvol |]. rewrite Hvol. unfold population_stdev.
  destruct Hrets as (s & a & i & _ & _ & _ & _ & _ & Hlen).
  rewrite Hlen, INR_to_nat by lia. reflexivity.
Qed.

End RealEngine.

(** ** A concrete world

    Stand-ins for the two libraries, to run the engine on: the provider
    answers every query with the frames it holds, and the sampler is
    deterministic: draw number [g] returns [size] copies of the mean
    vector shifted by [g]; like numpy it refuses a negative size, and a
    model that holds a NaN. *)

Local Open Scope string_scope.
Local Open Scope list_scope.

Definition has_nan (mean : list (Cell R)) (cov : list (list (Cell R))) : bool :=
  existsb (fun c => negb (notna c)) mean
  || existsb (existsb (fun c => negb (notna c))) cov.

Definition demo_sampler (mean : list (Cell R)) (cov : list (list (Cell R)))
           (size : Z) (g : nat) : result (ndarray R) * nat :=
  if (size <? 0)%Z
  then (Raise (Exception "ValueError" "negative dimensions are not allowed"), g)
  else if has_nan mean cov
  then (Raise (Exception "LinAlgError" "SVD did not converge"), S g)
  else (Ok (mkArray (length mean)
                    (repeat (map (fun c => match c with
                                           | Some m => (m + INR g)%R
                                           | None => 0%R
                                           end) mean)
                            (Z.to_nat size))),
        S g).

Definition demo_libs : Libraries R := {|
  RandomState := nat;
  Market := list (string * DataFrame R);
  yf_download := fun frames _ _ _ => Ok frames;
  multivariate_normal := demo_sampler;
  seed_state := Z.to_nat
|}.

Definition demo_frame : DataFrame R :=
  mkFrame ["AAPL"; "MSFT"]
          [("2024-01-02", [Some 100%R; Some 200%R]);
           ("2024-01-03", [Some 110%R; Some 190%R]);
           ("2024-01-04", [Some 121%R; Some 209%R])]%string.

(** The second ticker has no price on any date. *)
Definition missing_frame : DataFrame R :=
  mkFrame ["AAPL"; "ZZZZ"]
          [("2024-01-02", [Some 100%R; None]);
           ("2024-01-03", [Some 110%R; None]);
           ("2024-01-04", [Some 121%R; None])]%string.

Definition demo_world : @World R demo_libs :=
  @mkWorld R demo_libs 0%nat [("Adj Close"%string, demo_frame)].

Definition missing_world : @World R demo_libs :=
  @mkWorld R demo_libs 0%nat [("Adj Close"%string, missing_frame)].

Definition demo_run (tickers : list string) (portfolio_value : R)
           (years num_simulations : Z) (w : @World R demo_libs)
  : result (list (@OutcomeRow R)) * @World R demo_libs :=
  @run_monte_carlo R R_ops demo_libs tickers portfolio_value years
                   num_simulations "2014-01-01" "2024-12-31" w.

Lemma demo_sampling_ok (tickers : list string) (years : Z) :
  (length tickers <= 2)%nat -> (0 <= years)%Z ->
  @sampling_ok R demo_libs tickers
               (df_mean (daily_returns_of demo_frame))
               (df_cov (daily_returns_of demo_frame)) (years * 252).
Proof.
  intros Ht Hy g.
  assert (Hsize : (years * 252 <? 0)%Z = false) by (apply Z.ltb_ge; lia).
  eexists _, _. split; [| split].
  - cbn [multivariate_normal demo_libs]. unfold demo_sampler.
    rewrite Hsize. reflexivity.
  - cbn. exact Ht.
  - cbn [nd_rows]. apply repeat_length.
Qed.

Lemma demo_valid :
  @valid_invocation R R_ops demo_libs ["AAPL"; "MSFT"]%string 10 3
                    "2014-01-01" "2024-12-31" demo_world demo_frame.
Proof.
  repeat split; try lia.
  apply demo_sampling_ok; cbn; lia.
Qed.

Lemma run_monte_carlo_row_count_witness :
  exists table w',
    demo_run ["AAPL"; "MSFT"]%string 250000 10 3 demo_world = (Ok table, w')
    /\ length table = 6%nat.
Proof.
  destruct (run_monte_carlo_row_count 250000%R demo_valid)
    as (table & w' & Hrun & Hlen & _).
  exists table, w'. split; [exact Hrun |].
  unfold len in Hlen. cbn in Hlen. lia.
Defined.

Lemma run_monte_carlo_ids_witness :
  exists table w',
    demo_run ["AAPL"; "MSFT"]%string 250000 10 3 demo_world = (Ok table, w')
    /\ exists row, nth_error table 5 = Some row
                   /\ simulation_id row = 2%Z /\ ticker row = "MSFT"%string
                   /\ id row = 5%Z.
Proof.
  destruct (run_monte_carlo_ids 250000%R demo_valid)
    as (table & w' & Hrun & _ & Hpos).
  exists table, w'. split; [exact Hrun |].
  destruct (Hpos 2%nat 1%nat "MSFT"%string) as (row & Hrow & Hsim & Htk & Hid);
    [cbn; lia | reflexivity |].
  exists row. repeat split; assumption.
Defined.




Lemma volatility_population_stdev_witness :
  exists table w',
    demo_run ["AAPL"; "MSFT"] 250000 10 3 demo_world = (Ok table, w')
    /\ forall row, In row table ->
         exists rets,
           volatility row
           = (R_sqrt.sqrt (squared_deviations rets / 2520) * R_sqrt.sqrt 252)%R.
Proof.
  destruct (volatility_population_stdev 250000%R demo_valid)
    as (table & w' & Hrun & Hrows).
  exists table, w'. split; [exact Hrun |].
  intros row Hin.
  destruct (Hrows row Hin) as (rets & _ & _ & Hvol).
  exists rets. exact Hvol.
Defined.

(** Out-of-range parameters on the concrete world. *)

Lemma run_monte_carlo_no_validation_witness :
  demo_run ["AAPL"; "MSFT"] 250000 10 0 demo_world
  = (Ok [], demo_world)
  /\ fst (demo_run ["AAPL"; "MSFT"] 250000 0 1000 demo_world)
     = Raise ZeroDivisionError
  /\ fst (demo_run ["AAPL"; "MSFT"] 250000 (-1) 1000 demo_world)
     = Raise (Exception "ValueError" "negative dimensions are not allowed").
Proof.
  split; [| split].
  - destruct (@run_monte_carlo_no_validation R R_ops demo_libs
                ["AAPL"; "MSFT"] 250000%R 10 0
                "2014-01-01" "2024-12-31" demo_world)
      as (_ & Hnone & _).
    apply (Hnone demo_frame); [reflexivity | lia].
  - destruct (@run_monte_carlo_no_validation R R_ops demo_libs
                ["AAPL"; "MSFT"] 250000%R 0 1000
                "2014-01-01" "2024-12-31" demo_world)
      as (_ & _ & Hzero & _).
    unfold demo_run.
    rewrite (Hzero demo_frame (mkArray 2 (repeat [] 0)) 1%nat);
      [reflexivity | reflexivity | lia | discriminate | reflexivity
       | reflexivity | cbn; lia].
  - destruct (@run_monte_carlo_no_validation R R_ops demo_libs
                ["AAPL"; "MSFT"] 250000%R (-1) 1000
                "2014-01-01" "2024-12-31" demo_world)
      as (_ & _ & _ & Hdraw & _).
    unfold demo_run.
    rewrite (Hdraw demo_frame
                   (Exception "ValueError" "negative dimensions are not allowed")
                   0%nat);
      [reflexivity | reflexivity | lia | reflexivity].
Defined.

(** C3, the claim as stated fails: with [num_simulations = 0] and the
    other parameters at their defaults the run returns an empty table; it
    does not raise [InvalidParameterError]. *)
Lemma zero_simulations_not_rejected :
  fst (demo_run ["AAPL"; "MSFT"] 250000 10 0 demo_world) = Ok []
  /\ ~ raises "InvalidParameterError"
              (fst (demo_run ["AAPL"; "MSFT"] 250000 10 0 demo_world)).
Proof.
  assert (Hrun : fst (demo_run ["AAPL"; "MSFT"] 250000 10 0 demo_world) = Ok [])
    by reflexivity.
  split; [exact Hrun |].
  intros [msg Hmsg]. rewrite Hrun in Hmsg. discriminate.
Qed.

(** The same for a negative portfolio value, which is simply divided
    among the tickers. *)
Lemma negative_portfolio_value_accepted :
  exists table w',
    demo_run ["AAPL"; "MSFT"] (-1) 10 3 demo_world = (Ok table, w')
    /\ length table = 6%nat
    /\ forall row, In row table -> starting_value row = (-1 / 2)%R.
Proof.
  eexists _, _. split; [apply (run_monte_carlo_valid (-1)%R demo_valid) |].
  split.
  - rewrite expected_table_length; [reflexivity |].
    apply demo_sampling_ok; cbn; lia.
  - intros row Hin.
    destruct (valid_run_rows_exact (-1)%R _ demo_valid Hin)
      as (rets & _ & _ & Hstart & _).
    rewrite Hstart. reflexivity.
Qed.

(** A ticker without any price. *)

Lemma missing_frame_all_missing : all_missing missing_frame 1.
Proof.
  split; [cbn; lia |].
  intros r [<- | [<- | [<- | []]]]; reflexivity.
Qed.

Lemma run_monte_carlo_all_missing_witness :
  rows (dropna missing_frame) = []
  /\ fst (demo_run ["AAPL"; "ZZZZ"] 250000 10 1000 missing_world)
     = Raise (Exception "LinAlgError" "SVD did not converge").
Proof.
  destruct (@run_monte_carlo_all_missing R R_ops demo_libs
              ["AAPL"; "ZZZZ"] 250000%R 10 1000
              "2014-01-01" "2024-12-31" missing_world missing_frame 1%nat)
    as (Hdrop & _ & _ & _ & Hraise & _);
    [reflexivity | exact missing_frame_all_missing |].
  split; [exact Hdrop |].
  unfold demo_run. erewrite Hraise; [reflexivity | lia | reflexivity].
Defined.

(** C4, the claim as stated fails: the ticker ZZZZ has no price on any
    date, and the run ends with the sampler's exception about the NaN
    covariance, not with [MissingTickerDataError]. *)
Lemma missing_ticker_not_reported :
  all_missing missing_frame 1
  /\ nth_error ["AAPL"; "ZZZZ"] 1 = Some "ZZZZ"
  /\ ~ raises "MissingTickerDataError"
              (fst (demo_run ["AAPL"; "ZZZZ"] 250000 10 1000 missing_world)).
Proof.
  split; [exact missing_frame_all_missing |]. split; [reflexivity |].
  assert (Hrun : fst (demo_run ["AAPL"; "ZZZZ"] 250000 10 1000 missing_world)
                 = Raise (Exception "LinAlgError" "SVD did not converge")).
  { unfold demo_run.
    erewrite run_monte_carlo_first_draw_raises with (adj_close := missing_frame);
      [reflexivity | reflexivity | lia | reflexivity]. }
  intros [msg Hmsg]. rewrite Hrun in Hmsg. discriminate.
Qed.

(** ** Further properties of the engine *)

Section EngineMore.
Context {F : Type} {ops : FloatOps F} {libs : Libraries F}.
Variable tickers : list string.
Variable portfolio_value : F.
Variable years : Z.
Variable num_simulations : Z.

(** X1. The columns that do not depend on the draw: in the table of a
    valid run every row has [year = years], [starting_value =
    portfolio_value / len(tickers)] and [probability = 1 /
    num_simulations], in every interpretation of the float operations. *)
Theorem constant_columns
        (start_date end_date : string) (w : World) (adj_close : DataFrame F) :
  valid_invocation tickers years num_simulations start_date end_date w
                   adj_close ->
  exists table w',
    run_monte_carlo tickers portfolio_value years num_simulations
                    start_date end_date w = (Ok table, w')
    /\ forall row, In row table ->
         year row = years
         /\ starting_value row = fdiv portfolio_value (of_int (len tickers))
         /\ probability row = fdiv (of_int 1) (of_int num_simulations).
Proof.
  intros Hv.
  eexists _, _. split; [apply (run_monte_carlo_valid portfolio_value Hv) |].
  intros row Hin.
  destruct (valid_run_rows_exact portfolio_value row Hv Hin)
    as (rets & _ & Hyear & Hstart & _ & _ & _ & _ & Hprob).
  auto.
Qed.

(** *** Fewer sampled columns than tickers *)

Lemma ticker_loop_index_error (sim : Z) (a : ndarray F) :
  tickers <> [] -> years <> 0%Z -> num_simulations <> 0%Z ->
  forall (l : list string) (k : nat) (results : list OutcomeRow) (row_id : Z),
    (k <= nd_cols a)%nat -> (nd_cols a < k + length l)%nat ->
    ticker_loop tickers portfolio_value years num_simulations sim a
                (combine (seq k (length l)) l) results row_id
    = Raise IndexError.
Proof.
  intros Ht Hy Hn l. induction l as [| tk l IH]; intros k results row_id Hk Hlt.
  - cbn in Hlt. lia.
  - cbn [length seq combine ticker_loop].
    destruct (Nat.eq_dec k (nd_cols a)) as [-> | Hne].
    + unfold ticker_row, truediv. rewrite (len_nonempty Ht). cbn [bind].
      unfold column. rewrite Nat.ltb_irrefl. reflexivity.
    + rewrite ticker_row_ok by (auto; lia). cbn [bind].
      apply IH; cbn in Hlt; lia.
Qed.

(** X2. When the array of the first draw has fewer columns than there are
    tickers (the provider delivered fewer price columns than tickers were
    asked for), and [years] is not 0, the run stops in the first
    simulation with IndexError and returns no table. *)
Theorem too_few_columns
        (start_date end_date : string) (w : World) (adj_close : DataFrame F)
        (a : ndarray F) (g' : RandomState) :
  (data <- yf_download (market w) tickers start_date end_date ;;
   getitem data "Adj Close") = Ok adj_close ->
  (0 < num_simulations)%Z -> years <> 0%Z ->
  multivariate_normal (df_mean (daily_returns_of adj_close))
                      (df_cov (daily_returns_of adj_close))
                      (years * 252) (np_random w) = (Ok a, g') ->
  (nd_cols a < length tickers)%nat ->
  run_monte_carlo tickers portfolio_value years num_simulations
                  start_date end_date w
  = (Raise IndexError, mkWorld g' (market w)).
Proof.
  intros Hdl Hn Hy Hdraw Hcols.
  assert (Ht : tickers <> []) by (intros E; rewrite E in Hcols; cbn in Hcols; lia).
  unfold run_monte_carlo. rewrite Hdl.
  unfold simulate. fold (daily_returns_of adj_close). cbv zeta.
  destruct (range_pos Hn) as [sims ->]. cbn [sim_loop].
  rewrite Hdraw. unfold enumerate.
  rewrite ticker_loop_index_error by (auto; lia).
  reflexivity.
Qed.

(** *** Where an exception of the run can come from *)

Lemma ticker_row_raises (sim : Z) (a : ndarray F) (i : nat) (tk : string)
      (row_id : Z) (e : exception) :
  ticker_row tickers portfolio_value years num_simulations sim a i tk row_id
  = Raise e ->
  tickers <> [] -> num_simulations <> 0%Z ->
  e = IndexError \/ (e = ZeroDivisionError /\ years = 0%Z).
Proof.
  intros H Ht Hn. unfold ticker_row, truediv in H.
  rewrite (len_nonempty Ht) in H. cbn [bind] in H.
  destruct (column a i) as [rets |] eqn:Hc; cbn [bind] in H.
  - destruct (years =? 0)%Z eqn:Hy; cbn [bind] in H.
    + injection H as <-. right. split; [reflexivity |]. now apply Z.eqb_eq.
    + apply Z.eqb_neq in Hn. rewrite Hn in H. discriminate.
  - unfold column in Hc. destruct (i <? nd_cols a)%nat; [discriminate |].
    injection Hc as <-. injection H as <-. now left.
Qed.

Lemma ticker_loop_raises (sim : Z) (a : ndarray F) (e : exception) :
  tickers <> [] -> num_simulations <> 0%Z ->
  forall (items : list (nat * string)) (results : list OutcomeRow) (row_id : Z),
    ticker_loop tickers portfolio_value years num_simulations sim a
                items results row_id = Raise e ->
    e = IndexError \/ (e = ZeroDivisionError /\ years = 0%Z).
Proof.
  intros Ht Hn items.
  induction items as [| [i tk] items IH]; intros results row_id H.
  - discriminate.
  - cbn [ticker_loop] in H.
    destruct (ticker_row tickers portfolio_value years num_simulations
                         sim a i tk row_id) as [row |] eqn:Hrow;
      cbn [bind] in H.
    + eapply IH; eassumption.
    + injection H as <-. eapply ticker_row_raises; eassumption.
Qed.

Lemma sim_loop_raises (mean_returns : list (Cell F))
      (cov_matrix : list (list (Cell F))) (num_days : Z) (e : exception) :
  num_simulations <> 0%Z ->
  forall (sims : list Z) (results : list OutcomeRow) (row_id : Z)
         (g g' : RandomState),
    sim_loop tickers portfolio_value years num_simulations
             mean_returns cov_matrix num_days sims results row_id g
    = (Raise e, g') ->
    (exists g0 g1,
        multivariate_normal mean_returns cov_matrix num_days g0
        = (Raise e, g1))
    \/ e = IndexError \/ (e = ZeroDivisionError /\ years = 0%Z).
Proof.
  intros Hn sims.
  induction sims as [| sim sims IH]; intros results row_id g g' H.
  - discriminate.
  - cbn [sim_loop] in H.
    destruct (multivariate_normal mean_returns cov_matrix num_days g)
      as [[a | e0] g1] eqn:Hdraw.
    + destruct (ticker_loop tickers portfolio_value years num_simulations
                            sim a (enumerate tickers) results row_id)
        as [[results' row_id'] | e0] eqn:Hloop.
      * eapply IH; eassumption.
      * injection H as <- _. right.
        destruct (list_eq_dec string_dec tickers []) as [He | He].
        -- rewrite He in Hloop. discriminate.
        -- eapply ticker_loop_raises; eassumption.
    + injection H as <- _. left. eauto.
Qed.

(** X3. An exception of [run_monte_carlo] is the one the download (or
    the lookup of "Adj Close") raised, or one the sampler raised on the
    model of this run, or IndexError, or ZeroDivisionError; and
    ZeroDivisionError only when [years = 0]. *)
Theorem run_monte_carlo_exceptions
        (start_date end_date : string) (w w' : World) (e : exception) :
  run_monte_carlo tickers portfolio_value years num_simulations
                  start_date end_date w = (Raise e, w') ->
  (data <- yf_download (market w) tickers start_date end_date ;;
   getitem data "Adj Close") = Raise e
  \/ (exists adj_close g0 g1,
         (data <- yf_download (market w) tickers start_date end_date ;;
          getitem data "Adj Close") = Ok adj_close
         /\ multivariate_normal (df_mean (daily_returns_of adj_close))
                                (df_cov (daily_returns_of adj_close))
                                (years * 252) g0 = (Raise e, g1))
  \/ e = IndexError
  \/ (e = ZeroDivisionError /\ years = 0%Z).
Proof.
  unfold run_monte_carlo.
  destruct (data <- yf_download (market w) tickers start_date end_date ;;
            getitem data "Adj Close") as [adj_close | e0] eqn:Hdl.
  - unfold simulate. fold (daily_returns_of adj_close). cbv zeta.
    destruct (sim_loop tickers portfolio_value years num_simulations
                       (df_mean (daily_returns_of adj_close))
                       (df_cov (daily_returns_of adj_close)) (years * 252)
                       (range num_simulations) [] 0%Z (np_random w))
      as [[[results row_id] | e0] g1] eqn:Hloop; intros H; [discriminate |].
    injection H as <- _.
    destruct (Z_le_gt_dec num_simulations 0) as [Hle | Hgt].
    + rewrite (range_nonpos Hle) in Hloop. discriminate.
    + apply sim_loop_raises in Hloop; [| lia].
      destruct Hloop as [(g0 & g2 & Hdraw) | Hown]; [| now right; right].
      right. left. exists adj_close, g0, g2. auto.
  - intros H. injection H as <- _. now left.
Qed.

End EngineMore.

(** ** The return matrix *)

Section ReturnMatrix.
Context {F : Type} {ops : FloatOps F}.








End ReturnMatrix.

(** ** Further properties over the real numbers *)


Section RealMore.
Context {libs : Libraries R}.
Variable tickers : list string.
Variable portfolio_value : R.
Variable years : Z.
Variable num_simulations : Z.





End RealMore.

(** ** The covariance matrix *)

Lemma nth_map_seq {A : Type} (f : nat -> A) (n i : nat) (d : A) :
  nth i (map f (seq 0 n)) d = if (i <? n)%nat then f i else d.
Proof.
  destruct (i <? n)%nat eqn:Hi.
  - apply Nat.ltb_lt in Hi.
    rewrite (nth_indep _ d (f 0%nat)) by now rewrite length_map, length_seq.
    now rewrite map_nth, seq_nth.
  - apply Nat.ltb_ge in Hi.
    apply nth_overflow. now rewrite length_map, length_seq.
Qed.

Lemma column_pairs_swap {F : Type} (df : DataFrame F) (j k : nat) :
  column_pairs df k j = map (fun p => (snd p, fst p)) (column_pairs df j k).
Proof.
  unfold column_pairs.
  induction (rows df) as [| r rs IH]; cbn [flat_map map]; [reflexivity |].
  rewrite map_app, IH. f_equal. cbv beta. unfold Cell in *.
  destruct (nth_error (snd r) j) as [[x |] |];
    destruct (nth_error (snd r) k) as [[y |] |]; reflexivity.
Qed.

Lemma cov_of_swap (ps : list (R * R)) :
  cov_of (map (fun p => (snd p, fst p)) ps) = cov_of ps.
Proof.
  unfold cov_of, len. rewrite length_map.
  destruct (Z.of_nat (length ps) <? 2)%Z; [reflexivity |].
  rewrite !map_map. cbn [fst snd].
  do 3 f_equal. apply map_ext. intros [x y]. cbn. apply Rmult_comm.
Qed.

Lemma df_cov_entry (df : DataFrame R) (j k : nat) :
  nth k (nth j (df_cov df) []) None
  = if ((j <? length (columns df)) && (k <? length (columns df)))%nat
    then cov_of (column_pairs df j k)
    else None.
Proof.
  unfold df_cov. cbv zeta. rewrite nth_map_seq.
  destruct (j <? length (columns df))%nat; cbn [andb].
  - exact (nth_map_seq (fun k0 => cov_of (column_pairs df j k0)) _ _ _).
  - now destruct k.
Qed.

(** X8. The model handed to the sampler has the dimension of the price
    frame: the mean vector has one entry per column, the covariance
    matrix is square of that size, and the matrix is symmetric (real
    arithmetic). *)
Theorem covariance_symmetric (df : DataFrame R) :
  length (df_mean df) = length (columns df)
  /\ length (df_cov df) = length (columns df)
  /\ Forall (fun r => length r = length (columns df)) (df_cov df)
  /\ forall j k,
       nth k (nth j (df_cov df) []) None = nth j (nth k (df_cov df) []) None.
Proof.
  split; [unfold df_mean; now rewrite length_map, length_seq |].
  split; [unfold df_cov; cbv zeta; now rewrite length_map, length_seq |].
  split.
  - unfold df_cov. cbv zeta. apply Forall_forall. intros r Hr.
    apply in_map_iff in Hr. destruct Hr as (j & <- & _).
    now rewrite length_map, length_seq.
  - intros j k. rewrite !df_cov_entry, (andb_comm (k <? _)%nat).
    destruct ((j <? length (columns df)) && (k <? length (columns df)))%nat;
      [| reflexivity].
    now rewrite (column_pairs_swap df j k), cov_of_swap.
Qed.

(** ** The portfolio value is a scale *)


Section Scale.
Context {libs : Libraries R}.
Variable tickers : list string.
Variable years : Z.
Variable num_simulations : Z.
Variables p q : R.
Hypothesis p_not_0 : p <> 0%R.
Hypothesis q_not_0 : q <> 0%R.





End Scale.

(** ** The further properties on the concrete world *)

Lemma constant_columns_witness :
  exists table w',
    demo_run ["AAPL"; "MSFT"] 250000 10 4 demo_world = (Ok table, w')
    /\ forall row, In row table ->
         year row = 10%Z /\ starting_value row = (250000 / 2)%R
         /\ probability row = (1 / 4)%R.
Proof.
  assert (Hv : @valid_invocation R R_ops demo_libs ["AAPL"; "MSFT"] 10 4
                                 "2014-01-01" "2024-12-31" demo_world
                                 demo_frame).
  { repeat split; try lia. apply demo_sampling_ok; cbn; lia. }
  destruct (constant_columns 250000%R Hv) as (table & w' & Hrun & Hrows).
  exists table, w'. split; [exact Hrun |]. exact Hrows.
Defined.

Lemma too_few_columns_witness :
  fst (demo_run ["AAPL"; "MSFT"; "NVDA"] 250000 10 3 demo_world)
  = Raise IndexError.
Proof.
  unfold demo_run.
  rewrite (@too_few_columns R R_ops demo_libs ["AAPL"; "MSFT"; "NVDA"]
             250000%R 10 3 "2014-01-01" "2024-12-31" demo_world demo_frame
             (mkArray 2 (repeat (map (fun c => match c with
                                               | Some m => (m + INR 0)%R
                                               | None => 0%R
                                               end)
                                     (df_mean (daily_returns_of demo_frame)))
                                (Z.to_nat (10 * 252))))
             1%nat);
    [reflexivity | reflexivity | lia | discriminate | reflexivity | cbn; lia].
Defined.

Lemma run_monte_carlo_exceptions_witness :
  fst (demo_run ["AAPL"; "MSFT"] 250000 (-1) 1000 demo_world)
  = Raise (Exception "ValueError" "negative dimensions are not allowed")
  /\ exists g0 g1,
       @multivariate_normal R demo_libs
                            (df_mean (daily_returns_of demo_frame))
                            (df_cov (daily_returns_of demo_frame))
                            (-1 * 252) g0
       = (Raise (Exception "ValueError" "negative dimensions are not allowed"),
          g1).
Proof.
  assert (Hrun : demo_run ["AAPL"; "MSFT"] 250000 (-1) 1000 demo_world
                 = (Raise (Exception "ValueError"
                                     "negative dimensions are not allowed"),
                    @mkWorld R demo_libs 0%nat (market demo_world)))
    by reflexivity.
  split; [now rewrite Hrun |].
  destruct (@run_monte_carlo_exceptions
              R R_ops demo_libs ["AAPL"; "MSFT"] 250000%R (-1) 1000
              "2014-01-01" "2024-12-31" demo_world _ _ Hrun)
    as [Hdl | [(adj & g0 & g1 & Hdl & Hdraw) | [He | [He _]]]];
    try discriminate.
  injection Hdl as <-. exists g0, g1. exact Hdraw.
Defined.








End MonteCarlo.

(* ================================================================== *)
(** * The cleaning step of the Transform module *)

Module Transform.
Import Py.
Import Floats.
Local Open Scope py_scope.

(** A cell of the [date] column: a string still to be parsed, a pandas
    timestamp (day number and time of day), a [datetime.date], or NaT. *)
Inductive date_cell : Type :=
| DateStr (s : string)
| Timestamp (day : Z) (nanos : Z)
| Date (day : Z)
| NaT.

(** A cell of the [volume] column: an integer or a float. *)
Inductive volume_cell : Type :=
| VInt (z : Z)
| VFloat (f : float).

Record Row : Type := mkRow {
  ticker : string;
  date : date_cell;
  open : float;
  high : float;
  low : float;
  close : float;
  adj_close : float;
  volume : volume_cell
}.

(** A frame of stock data: the labels of the columns it has, and its rows
    (the cell of a column the frame does not have is not looked at). *)
Record DataFrame : Type := mkFrame {
  columns : list string;
  rows : list Row
}.

(** The library calls whose result depends on pandas' parsers and casts. *)
Class Pandas : Type := {
  (* pd.to_datetime on one string: (day, time of day), None for NaT *)
  parse_datetime : string -> result (option (Z * Z));
  (* astype(int) on one float: raises on NaN and the infinities *)
  float_to_int64 : float -> result Z
}.

Inductive price_col : Type := Open | High | Low | Close | AdjClose.

Definition col_name (c : price_col) : string :=
  match c with
  | Open => "open"
  | High => "high"
  | Low => "low"
  | Close => "close"
  | AdjClose => "adj_close"
  end.

Definition price (c : price_col) (r : Row) : float :=
  match c with
  | Open => open r
  | High => high r
  | Low => low r
  | Close => close r
  | AdjClose => adj_close r
  end.

Definition price_cols : list price_col := [Open; High; Low; Close; AdjClose].

Definition set_date (r : Row) (d : date_cell) : Row :=
  mkRow (ticker r) d (open r) (high r) (low r) (close r) (adj_close r)
        (volume r).

Definition set_ticker (r : Row) (t : string) : Row :=
  mkRow t (date r) (open r) (high r) (low r) (close r) (adj_close r)
        (volume r).

Definition set_volume (r : Row) (v : volume_cell) : Row :=
  mkRow (ticker r) (date r) (open r) (high r) (low r) (close r) (adj_close r) v.

(** [c in df.columns]. *)
Definition has_column (cols : list string) (c : string) : bool :=
  existsb (String.eqb c) cols.

(** The KeyError of a column that is used but absent. *)
Fixpoint require_columns (cols : list string) (names : list string)
  : result unit :=
  match names with
  | [] => Ok tt
  | n :: names' =>
      if has_column cols n then require_columns cols names'
      else Raise (KeyError n)
  end.

Fixpoint map_result {A B : Type} (f : A -> result B) (l : list A)
  : result (list B) :=
  match l with
  | [] => Ok []
  | a :: l' => b <- f a ;; bs <- map_result f l' ;; Ok (b :: bs)
  end.

(** [str.upper()] on ASCII text (tickers are taken to be strings already,
    so that [astype(str)] leaves them as they are). *)
Definition upper_ascii (c : ascii) : ascii :=
  let n := nat_of_ascii c in
  if ((97 <=? n) && (n <=? 122))%nat then ascii_of_nat (n - 32) else c.

Fixpoint upper (s : string) : string :=
  match s with
  | EmptyString => EmptyString
  | String c s' => String (upper_ascii c) (upper s')
  end.

(** [.dt.date]: the time of day is dropped. *)
Definition dt_date (c : date_cell) : date_cell :=
  match c with
  | Timestamp day _ => Date day
  | other => other
  end.

(** [fillna(0)] on a volume cell. *)
Definition fillna0 (v : volume_cell) : volume_cell :=
  match v with
  | VFloat f => if is_nan f then VFloat 0%float else v
  | VInt _ => v
  end.

Definition volume_ge0 (v : volume_cell) : bool :=
  match v with
  | VInt z => (0 <=? z)%Z
  | VFloat f => (0 <=? f)%float
  end.

(** The condition of lines 211-217. *)
Definition valid_range (r : Row) : bool :=
  (low r <=? high r)%float && (open r <=? high r)%float
  && (close r <=? high r)%float && (low r <=? open r)%float
  && (low r <=? close r)%float.

(** [df.dropna(subset=price_cols)]. *)
Definition dropna_prices (rs : list Row) : list Row :=
  filter (fun r => forallb (fun c => negb (is_nan (price c r))) price_cols) rs.

(** [for col in price_cols: df = df[df[col] > 0]]. *)
Definition positive_prices (rs : list Row) : list Row :=
  fold_left (fun rs' c => filter (fun r => (0 <? price c r)%float) rs')
            price_cols rs.

(** The key of [drop_duplicates] and [sort_values]. *)
Definition key (r : Row) : string * date_cell := (ticker r, date r).

Definition date_cell_eq_dec (a b : date_cell) : {a = b} + {a <> b}.
Proof.
  decide equality; try apply Z.eq_dec; apply string_dec.
Defined.

Definition key_eq_dec (a b : string * date_cell) : {a = b} + {a <> b}.
Proof.
  decide equality; [apply date_cell_eq_dec | apply string_dec].
Defined.

(** [drop_duplicates(subset=['ticker', 'date'], keep='first')]: [seen]
    holds the keys met so far. *)
Fixpoint drop_duplicates_from (seen : list (string * date_cell))
         (rs : list Row) : list Row :=
  match rs with
  | [] => []
  | r :: rs' =>
      if in_dec key_eq_dec (key r) seen
      then drop_duplicates_from seen rs'
      else r :: drop_duplicates_from (key r :: seen) rs'
  end.

Definition drop_duplicates (rs : list Row) : list Row :=
  drop_duplicates_from [] rs.

(** The order of [sort_values(['ticker', 'date'])]: tickers by code
    point, then dates, a missing date last. *)
Definition date_leb (a b : date_cell) : bool :=
  match a, b with
  | Date x, Date y => (x <=? y)%Z
  | Date _, _ => true
  | _, Date _ => false
  | _, _ => true
  end.

Definition key_leb (a b : string * date_cell) : bool :=
  match String.compare (fst a) (fst b) with
  | Lt => true
  | Eq => date_leb (snd a) (snd b)
  | Gt => false
  end.

Fixpoint insert (r : Row) (l : list Row) : list Row :=
  match l with
  | [] => [r]
  | x :: l' => if key_leb (key r) (key x) then r :: l else x :: insert r l'
  end.

(** A stable sort on the key. *)
Definition sort_values (rs : list Row) : list Row :=
  fold_right insert [] rs.

Section Clean.
Context {pd : Pandas}.

(** [pd.to_datetime] on one cell: a string goes through the parser, a
    [datetime.date] becomes the timestamp of its midnight (day numbers are
    taken within the range of pandas timestamps). *)
Definition to_datetime (c : date_cell) : result date_cell :=
  match c with
  | DateStr s =>
      parsed <- parse_datetime s ;;
      match parsed with
      | Some (day, nanos) => Ok (Timestamp day nanos)
      | None => Ok NaT
      end
  | Timestamp day nanos => Ok (Timestamp day nanos)
  | Date day => Ok (Timestamp day 0)
  | NaT => Ok NaT
  end.

(** [astype(int)] on a volume cell. *)
Definition astype_int (v : volume_cell) : result volume_cell :=
  match v with
  | VInt z => Ok (VInt z)
  | VFloat f => z <- float_to_int64 f ;; Ok (VInt z)
  end.

(** [df.empty]: no row, or no column. *)
Definition empty (df : DataFrame) : bool :=
  match rows df, columns df with
  | [], _ => true
  | _, [] => true
  | _, _ => false
  end.

(** Lines 193-196: the [date] column through [pd.to_datetime], then
    [.dt.date]. *)
Definition convert_dates (cols : list string) (rs : list Row)
  : result (list Row) :=
  if has_column cols "date"
  then parsed <- map_result (fun r => d <- to_datetime (date r) ;;
                                      Ok (set_date r d)) rs ;;
       Ok (map (fun r => set_date r (dt_date (date r))) parsed)
  else Ok rs.

(** Lines 199-200. *)
Definition upper_tickers (cols : list string) (rs : list Row) : list Row :=
  if has_column cols "ticker"
  then map (fun r => set_ticker r (upper (ticker r))) rs
  else rs.

(** Lines 204-217. *)
Definition filter_prices (rs : list Row) : list Row :=
  filter valid_range (positive_prices (dropna_prices rs)).

(** Lines 220-223. *)
Definition clean_volume (cols : list string) (rs : list Row)
  : result (list Row) :=
  if has_column cols "volume"
  then cast <- map_result (fun r => v <- astype_int (fillna0 (volume r)) ;;
                                    Ok (set_volume r v)) rs ;;
       Ok (filter (fun r => volume_ge0 (volume r)) cast)
  else Ok rs.

Definition clean_stock_data (df : DataFrame) : result DataFrame :=
  if empty df then Ok df
  else
    let cols := columns df in
    rows1 <- convert_dates cols (rows df) ;;
    let rows2 := upper_tickers cols rows1 in
    (* dropna(subset=price_cols) needs the five price columns *)
    _ <- require_columns cols (map col_name price_cols) ;;
    let rows5 := filter_prices rows2 in
    rows6 <- clean_volume cols rows5 ;;
    (* drop_duplicates(subset=['ticker', 'date']) needs the two *)
    _ <- require_columns cols ["ticker"; "date"]%string ;;
    Ok (mkFrame cols (sort_values (drop_duplicates rows6))).

End Clean.

(** ** Lists *)

Lemma filter_all {A : Type} (p : A -> bool) (l : list A) :
  Forall (fun x => p x = true) l -> filter p l = l.
Proof.
  induction 1 as [| x l Hx _ IH]; cbn; [reflexivity |].
  now rewrite Hx, IH.
Qed.

Lemma fold_filter_In {A C : Type} (p : C -> A -> bool) (cs : list C) :
  forall (l : list A) (x : A),
    In x (fold_left (fun l' c => filter (p c) l') cs l)
    <-> In x l /\ forall c, In c cs -> p c x = true.
Proof.
  induction cs as [| c cs IH]; intros l x; cbn.
  - split; [intros H; split; [exact H | intros c []] | now intros [H _]].
  - rewrite IH, filter_In. split.
    + intros [[Hin Hc] Hcs]. split; [exact Hin |].
      intros c0 [<- | Hc0]; auto.
    + intros [Hin Hall]. repeat split; auto.
Qed.

Lemma fold_filter_all {A C : Type} (p : C -> A -> bool) (cs : list C)
      (l : list A) :
  (forall c, In c cs -> Forall (fun x => p c x = true) l) ->
  fold_left (fun l' c => filter (p c) l') cs l = l.
Proof.
  induction cs as [| c cs IH]; intros Hall; cbn; [reflexivity |].
  rewrite filter_all by (apply Hall; now left).
  apply IH. intros c0 Hc0. apply Hall. now right.
Qed.

Lemma map_result_Forall2 {A B : Type} (f : A -> result B) (l : list A) :
  forall l', map_result f l = Ok l' -> Forall2 (fun a b => f a = Ok b) l l'.
Proof.
  induction l as [| a l IH]; intros l' H; cbn in H.
  - injection H as <-. constructor.
  - destruct (f a) as [b |] eqn:Hb; cbn in H; [| discriminate].
    destruct (map_result f l) as [bs |]; cbn in H; [| discriminate].
    injection H as <-. constructor; auto.
Qed.

Lemma map_result_all {A B : Type} (f : A -> result B) (g : A -> B)
      (l : list A) :
  Forall (fun a => f a = Ok (g a)) l -> map_result f l = Ok (map g l).
Proof.
  induction 1 as [| a l Ha _ IH]; cbn; [reflexivity |].
  now rewrite Ha, IH.
Qed.

Lemma map_all_id {A : Type} (g : A -> A) (l : list A) :
  Forall (fun a => g a = a) l -> map g l = l.
Proof.
  induction 1 as [| a l Ha _ IH]; cbn; [reflexivity |].
  now rewrite Ha, IH.
Qed.

Lemma Forall2_in_r {A B : Type} (R : A -> B -> Prop) (l : list A)
      (l' : list B) (b : B) :
  Forall2 R l l' -> In b l' -> exists a, In a l /\ R a b.
Proof.
  induction 1 as [| a0 b0 l l' Hab _ IH]; intros Hin; [contradiction |].
  destruct Hin as [<- | Hin].
  - exists a0. split; [now left | exact Hab].
  - destruct (IH Hin) as (a & Ha & HR). exists a. split; [now right | exact HR].
Qed.

(** ** [drop_duplicates] *)

Lemma drop_duplicates_from_In (rs : list Row) :
  forall seen r, In r (drop_duplicates_from seen rs) -> In r rs.
Proof.
  induction rs as [| x rs IH]; intros seen r Hin; cbn in *; [exact Hin |].
  destruct (in_dec key_eq_dec (key x) seen).
  - right. eauto.
  - destruct Hin as [-> | Hin]; [now left | right; eauto].
Qed.

Lemma drop_duplicates_from_fresh (rs : list Row) :
  forall seen r,
    In r (drop_duplicates_from seen rs) -> ~ In (key r) seen.
Proof.
  induction rs as [| x rs IH]; intros seen r Hin; cbn in *; [contradiction |].
  destruct (in_dec key_eq_dec (key x) seen) as [Hx | Hx].
  - eauto.
  - destruct Hin as [<- | Hin]; [exact Hx |].
    intros Hseen. apply (IH _ _ Hin). now right.
Qed.

Lemma drop_duplicates_from_NoDup (rs : list Row) :
  forall seen, NoDup (map key (drop_duplicates_from seen rs)).
Proof.
  induction rs as [| x rs IH]; intros seen; cbn; [constructor |].
  destruct (in_dec key_eq_dec (key x) seen) as [Hx | Hx]; [apply IH |].
  cbn. constructor; [| apply IH].
  intros Hin. apply in_map_iff in Hin. destruct Hin as (r & Hk & Hr).
  apply drop_duplicates_from_fresh in Hr. apply Hr. rewrite Hk. now left.
Qed.

Lemma drop_duplicates_from_id (rs : list Row) :
  forall seen,
    NoDup (map key rs) ->
    (forall r, In r rs -> ~ In (key r) seen) ->
    drop_duplicates_from seen rs = rs.
Proof.
  induction rs as [| x rs IH]; intros seen Hnd Hfresh; cbn; [reflexivity |].
  cbn in Hnd. inversion Hnd as [| k ks Hx Hnd']; subst.
  destruct (in_dec key_eq_dec (key x) seen) as [Hin | _].
  - exfalso. apply (Hfresh x); [now left | exact Hin].
  - f_equal. apply IH; [exact Hnd' |].
    intros r Hr [Heq | Hseen].
    + apply Hx. rewrite Heq. now apply in_map.
    + apply (Hfresh r); [now right | exact Hseen].
Qed.

(** ** The order of the keys *)

Definition key_le (a b : Row) : Prop := key_leb (key a) (key b) = true.

Lemma date_leb_total (a b : date_cell) :
  date_leb a b = false -> date_leb b a = true.
Proof.
  destruct a, b; cbn; try discriminate; try reflexivity.
  intros H. apply Z.leb_gt in H. apply Z.leb_le. lia.
Qed.

Lemma date_leb_trans (a b c : date_cell) :
  date_leb a b = true -> date_leb b c = true -> date_leb a c = true.
Proof.
  destruct a, b, c; cbn; try discriminate; try reflexivity.
  intros H1 H2. apply Z.leb_le in H1, H2. apply Z.leb_le. lia.
Qed.

Lemma key_leb_total (a b : string * date_cell) :
  key_leb a b = false -> key_leb b a = true.
Proof.
  unfold key_leb. rewrite (String.compare_antisym (fst b) (fst a)).
  destruct (String.compare (fst a) (fst b)); cbn;
    [apply date_leb_total | discriminate | reflexivity].
Qed.

Lemma compare_Lt_trans (a b c : string) :
  String.compare a b = Lt -> String.compare b c = Lt -> String.compare a c = Lt.
Proof.
  intros H1 H2.
  apply OrderedTypeEx.String_as_OT.cmp_lt in H1, H2.
  apply OrderedTypeEx.String_as_OT.cmp_lt.
  eapply OrderedTypeEx.String_as_OT.lt_trans; eassumption.
Qed.

Lemma key_leb_trans (a b c : string * date_cell) :
  key_leb a b = true -> key_leb b c = true -> key_leb a c = true.
Proof.
  unfold key_leb.
  destruct (String.compare (fst a) (fst b)) eqn:Hab; try discriminate;
    destruct (String.compare (fst b) (fst c)) eqn:Hbc; try discriminate;
    intros H1 H2.
  - apply String.compare_eq_iff in Hab, Hbc.
    rewrite Hab, Hbc.
    assert (He : String.compare (fst c) (fst c) = Eq)
      by (apply OrderedTypeEx.String_as_OT.cmp_eq; reflexivity).
    rewrite He. eapply date_leb_trans; eassumption.
  - apply String.compare_eq_iff in Hab. rewrite Hab, Hbc. reflexivity.
  - apply String.compare_eq_iff in Hbc. rewrite <- Hbc, Hab. reflexivity.
  - now rewrite (compare_Lt_trans _ _ _ Hab Hbc).
Qed.

#[export] Instance key_le_Transitive : RelationClasses.Transitive key_le.
Proof.
  intros a b c. unfold key_le. apply key_leb_trans.
Qed.

(** ** [sort_values] *)

Lemma insert_Permutation (r : Row) (l : list Row) :
  Permutation (insert r l) (r :: l).
Proof.
  induction l as [| x l IH]; cbn; [reflexivity |].
  destruct (key_leb (key r) (key x)); [reflexivity |].
  rewrite IH. apply perm_swap.
Qed.

Lemma sort_values_Permutation (l : list Row) :
  Permutation (sort_values l) l.
Proof.
  induction l as [| x l IH]; cbn; [reflexivity |].
  rewrite insert_Permutation. now constructor.
Qed.

Lemma insert_Sorted (r : Row) (l : list Row) :
  Sorted key_le l -> Sorted key_le (insert r l).
Proof.
  induction 1 as [| x l Hs IH Hhd]; cbn.
  - repeat constructor.
  - destruct (key_leb (key r) (key x)) eqn:Hrx.
    + constructor; [now constructor | now constructor].
    + constructor; [exact IH |].
      destruct l as [| y l]; cbn.
      * constructor. now apply key_leb_total.
      * destruct (key_leb (key r) (key y)).
        -- constructor. now apply key_leb_total.
        -- constructor. now inversion Hhd.
Qed.

Lemma sort_values_Sorted (l : list Row) : Sorted key_le (sort_values l).
Proof.
  induction l as [| x l IH]; cbn; [constructor | now apply insert_Sorted].
Qed.

Lemma sort_values_id (l : list Row) :
  Sorted key_le l -> sort_values l = l.
Proof.
  unfold sort_values.
  induction 1 as [| x l Hs IH Hhd]; cbn; [reflexivity |].
  rewrite IH. destruct Hhd as [| y l Hxy]; cbn; [reflexivity |].
  unfold key_le in Hxy. now rewrite Hxy.
Qed.

(** ** Rows *)

Lemma upper_ascii_idempotent (c : ascii) :
  upper_ascii (upper_ascii c) = upper_ascii c.
Proof.
  destruct c as [[] [] [] [] [] [] [] []]; reflexivity.
Qed.

Lemma upper_idempotent (s : string) : upper (upper s) = upper s.
Proof.
  induction s as [| c s IH]; cbn; [reflexivity |].
  now rewrite upper_ascii_idempotent, IH.
Qed.

(** The cells [.dt.date] leaves in the column. *)
Definition is_date (c : date_cell) : bool :=
  match c with
  | Date _ | NaT => true
  | _ => false
  end.

(** What the cleaning establishes for one row of a frame with columns
    [cols]. *)
Definition clean_row (cols : list string) (r : Row) : Prop :=
  (has_column cols "date" = true -> is_date (date r) = true)
  /\ (has_column cols "ticker" = true -> upper (ticker r) = ticker r)
  /\ (forall c, is_nan (price c r) = false /\ (0 <? price c r)%float = true)
  /\ valid_range r = true
  /\ (has_column cols "volume" = true ->
      exists z, volume r = VInt z /\ (0 <= z)%Z).

Lemma price_cols_all (c : price_col) : In c price_cols.
Proof. destruct c; cbn; auto 6. Qed.

Lemma set_date_same (r : Row) : set_date r (date r) = r.
Proof. now destruct r. Qed.

Lemma set_volume_same (r : Row) : set_volume r (volume r) = r.
Proof. now destruct r. Qed.

Lemma set_ticker_same (r : Row) : set_ticker r (ticker r) = r.
Proof. now destruct r. Qed.

Section CleanFacts.
Context {pd : Pandas}.

Lemma to_datetime_is_date (c d : date_cell) :
  to_datetime c = Ok d -> is_date (dt_date d) = true.
Proof.
  destruct c as [s | day nanos | day |]; cbn.
  - destruct (parse_datetime s) as [[[day nanos] |] |]; cbn;
      intros H; try discriminate; now injection H as <-.
  - intros H. now injection H as <-.
  - intros H. now injection H as <-.
  - intros H. now injection H as <-.
Qed.

Lemma to_datetime_of_date (c : date_cell) :
  is_date c = true -> exists d, to_datetime c = Ok d /\ dt_date d = c.
Proof.
  destruct c as [s | day nanos | day |]; cbn; try discriminate; intros _.
  - now exists (Timestamp day 0).
  - now exists NaT.
Qed.

(** *** The stages *)

Lemma convert_dates_rows (cols : list string) (rs rs1 : list Row) :
  convert_dates cols rs = Ok rs1 ->
  Forall (fun r => has_column cols "date" = true -> is_date (date r) = true)
         rs1.
Proof.
  unfold convert_dates.
  destruct (has_column cols "date") eqn:Hd.
  - destruct (map_result _ rs) as [parsed |] eqn:Hp; cbn; [| discriminate].
    intros H. injection H as <-.
    apply map_result_Forall2 in Hp.
    apply Forall_forall. intros r Hin _.
    apply in_map_iff in Hin. destruct Hin as (p & <- & Hpin).
    cbn [date set_date].
    destruct (@Forall2_in_r _ _ _ _ _ _ Hp Hpin) as (r0 & _ & Hr0).
    cbn in Hr0.
    destruct (to_datetime (date r0)) as [d |] eqn:Hd0; cbn in Hr0;
      [| discriminate].
    injection Hr0 as <-. cbn [date set_date].
    eapply to_datetime_is_date; eassumption.
  - intros _. apply Forall_forall. intros r _ H. discriminate.
Qed.

Lemma upper_tickers_rows (cols : list string) (rs : list Row) (r : Row) :
  In r (upper_tickers cols rs) ->
  (has_column cols "ticker" = true -> upper (ticker r) = ticker r)
  /\ exists r0, In r0 rs /\ date r = date r0.
Proof.
  unfold upper_tickers. destruct (has_column cols "ticker").
  - intros Hin. apply in_map_iff in Hin. destruct Hin as (r0 & <- & Hr0).
    split; [intros _; cbn; apply upper_idempotent | now exists r0].
  - intros Hin. split; [discriminate | now exists r].
Qed.

Lemma filter_prices_In (rs : list Row) (r : Row) :
  In r (filter_prices rs)
  <-> In r rs
      /\ (forall c, is_nan (price c r) = false /\ (0 <? price c r)%float = true)
      /\ valid_range r = true.
Proof.
  unfold filter_prices, positive_prices, dropna_prices.
  rewrite filter_In, fold_filter_In, filter_In, forallb_forall.
  split.
  - intros [[[Hin Hnan] Hpos] Hrange]. repeat split; auto.
    + specialize (Hnan c (price_cols_all c)).
      now apply negb_true_iff in Hnan.
    + apply Hpos, price_cols_all.
  - intros (Hin & Hprice & Hrange). repeat split; auto.
    + intros c _. apply negb_true_iff, Hprice.
    + intros c _. apply Hprice.
Qed.

Lemma clean_volume_rows (cols : list string) (rs rs6 : list Row) (r : Row) :
  clean_volume cols rs = Ok rs6 ->
  In r rs6 ->
  (has_column cols "volume" = true ->
   exists z, volume r = VInt z /\ (0 <= z)%Z)
  /\ exists r0, In r0 rs /\ exists v, r = set_volume r0 v.
Proof.
  unfold clean_volume.
  destruct (has_column cols "volume") eqn:Hv.
  - destruct (map_result _ rs) as [cast |] eqn:Hc; cbn; [| discriminate].
    intros H Hin. injection H as <-.
    apply filter_In in Hin. destruct Hin as [Hin Hge].
    apply map_result_Forall2 in Hc.
    destruct (@Forall2_in_r _ _ _ _ _ _ Hc Hin) as (r0 & Hr0 & Hcast).
    cbn in Hcast.
    destruct (astype_int (fillna0 (volume r0))) as [v |] eqn:Hv0;
      cbn in Hcast; [| discriminate].
    injection Hcast as <-.
    split; [| exists r0; split; [exact Hr0 | now exists v]].
    intros _. cbn [volume set_volume] in *.
    unfold astype_int in Hv0.
    destruct (fillna0 (volume r0)) as [z | f].
    + injection Hv0 as <-. exists z. split; [reflexivity |].
      now apply Z.leb_le.
    + destruct (float_to_int64 f) as [z |]; cbn in Hv0; [| discriminate].
      injection Hv0 as <-. exists z. split; [reflexivity |].
      now apply Z.leb_le.
  - intros H Hin. injection H as <-.
    split; [discriminate |].
    exists r. split; [exact Hin |]. exists (volume r).
    now rewrite set_volume_same.
Qed.

(** The rows that reach [drop_duplicates] are clean. *)
Lemma stages_clean (cols : list string) (rs rs1 rs6 : list Row) :
  convert_dates cols rs = Ok rs1 ->
  clean_volume cols (filter_prices (upper_tickers cols rs1)) = Ok rs6 ->
  Forall (clean_row cols) rs6.
Proof.
  intros H1 H6. apply Forall_forall. intros r Hin.
  edestruct clean_volume_rows as [Hvol (r5 & Hr5 & v & Heq)];
    [exact H6 | exact Hin |]. subst r.
  apply filter_prices_In in Hr5. destruct Hr5 as (Hr2 & Hprice & Hrange).
  apply upper_tickers_rows in Hr2. destruct Hr2 as [Hup (r1 & Hr1 & Hdate)].
  pose proof (convert_dates_rows cols rs H1) as Hd.
  rewrite Forall_forall in Hd. specialize (Hd r1 Hr1).
  unfold clean_row. cbn [date ticker volume set_volume].
  repeat split; try assumption.
  - intros Hc. rewrite Hdate. now apply Hd.
  - apply Hprice.
  - apply Hprice.
Qed.

(** *** The whole function *)

Lemma empty_false (df : DataFrame) :
  empty df = false -> rows df <> [] /\ columns df <> [].
Proof.
  unfold empty. destruct (rows df), (columns df); try discriminate.
  intros _. split; discriminate.
Qed.

Lemma clean_stock_data_inv (df out : DataFrame) :
  clean_stock_data df = Ok out ->
  empty df = false ->
  exists rs6,
    out = mkFrame (columns df) (sort_values (drop_duplicates rs6))
    /\ Forall (clean_row (columns df)) rs6
    /\ require_columns (columns df) (map col_name price_cols) = Ok tt
    /\ require_columns (columns df) ["ticker"; "date"]%string = Ok tt.
Proof.
  intros H He. unfold clean_stock_data in H. rewrite He in H.
  cbv zeta in H.
  destruct (convert_dates (columns df) (rows df)) as [rs1 |] eqn:H1;
    cbn [bind] in H; [| discriminate].
  destruct (require_columns (columns df) (map col_name price_cols))
    as [[] |] eqn:Hr1; cbn [bind] in H; [| discriminate].
  destruct (clean_volume (columns df)
                         (filter_prices (upper_tickers (columns df) rs1)))
    as [rs6 |] eqn:H6; cbn [bind] in H; [| discriminate].
  destruct (require_columns (columns df) ["ticker"; "date"]%string)
    as [[] |] eqn:Hr2; cbn [bind] in H; [| discriminate].
  injection H as <-. exists rs6. repeat split.
  eapply stages_clean; eassumption.
Qed.

Lemma sorted_rows_clean (cols : list string) (rs6 : list Row) :
  Forall (clean_row cols) rs6 ->
  Forall (clean_row cols) (sort_values (drop_duplicates rs6)).
Proof.
  intros Hc. rewrite Forall_forall in *. intros r Hin.
  apply Hc.
  apply (Permutation_in _ (sort_values_Permutation _)) in Hin.
  now apply drop_duplicates_from_In in Hin.
Qed.

Lemma sorted_rows_NoDup (rs6 : list Row) :
  NoDup (map key (sort_values (drop_duplicates rs6))).
Proof.
  eapply Permutation_NoDup;
    [apply Permutation_sym, Permutation_map, sort_values_Permutation |].
  apply drop_duplicates_from_NoDup.
Qed.

(** *** A second pass over clean rows changes nothing *)

Lemma convert_dates_clean (cols : list string) (l : list Row) :
  Forall (clean_row cols) l -> convert_dates cols l = Ok l.
Proof.
  intros Hc. unfold convert_dates.
  destruct (has_column cols "date") eqn:Hd; [| reflexivity].
  rewrite map_result_all
    with (g := fun r => match date r with
                        | Date day => set_date r (Timestamp day 0)
                        | _ => r
                        end).
  - cbn [bind]. f_equal. rewrite map_map. apply map_all_id.
    rewrite Forall_forall in *. intros r Hr.
    destruct (Hc r Hr) as (Hdate & _). specialize (Hdate Hd).
    destruct r as [t d o h lo c a v]. cbn in *.
    destruct d; try discriminate; reflexivity.
  - rewrite Forall_forall in *. intros r Hr.
    destruct (Hc r Hr) as (Hdate & _). specialize (Hdate Hd).
    destruct r as [t d o h lo c a v]. cbn in *.
    destruct d; try discriminate; reflexivity.
Qed.

Lemma upper_tickers_clean (cols : list string) (l : list Row) :
  Forall (clean_row cols) l -> upper_tickers cols l = l.
Proof.
  intros Hc. unfold upper_tickers.
  destruct (has_column cols "ticker") eqn:Ht; [| reflexivity].
  apply map_all_id. rewrite Forall_forall in *. intros r Hr.
  destruct (Hc r Hr) as (_ & Hup & _). rewrite (Hup Ht).
  apply set_ticker_same.
Qed.

Lemma filter_prices_clean (cols : list string) (l : list Row) :
  Forall (clean_row cols) l -> filter_prices l = l.
Proof.
  intros Hc. unfold filter_prices, positive_prices, dropna_prices.
  rewrite Forall_forall in Hc.
  rewrite (filter_all (fun r => forallb (fun c => negb (is_nan (price c r)))
                                        price_cols)).
  - rewrite fold_filter_all.
    + apply filter_all. apply Forall_forall. intros r Hr.
      now destruct (Hc r Hr) as (_ & _ & _ & Hrange & _).
    + intros c _. apply Forall_forall. intros r Hr.
      destruct (Hc r Hr) as (_ & _ & Hprice & _). apply Hprice.
  - apply Forall_forall. intros r Hr.
    destruct (Hc r Hr) as (_ & _ & Hprice & _).
    apply forallb_forall. intros c _. apply negb_true_iff, Hprice.
Qed.

Lemma clean_volume_clean (cols : list string) (l : list Row) :
  Forall (clean_row cols) l -> clean_volume cols l = Ok l.
Proof.
  intros Hc. unfold clean_volume.
  destruct (has_column cols "volume") eqn:Hv; [| reflexivity].
  rewrite Forall_forall in Hc.
  rewrite map_result_all with (g := fun r => r).
  - cbn [bind]. rewrite map_id. f_equal. apply filter_all.
    apply Forall_forall. intros r Hr.
    destruct (Hc r Hr) as (_ & _ & _ & _ & Hvol).
    destruct (Hvol Hv) as (z & -> & Hz). cbn. now apply Z.leb_le.
  - apply Forall_forall. intros r Hr.
    destruct (Hc r Hr) as (_ & _ & _ & _ & Hvol).
    destruct (Hvol Hv) as (z & Hz & _).
    rewrite Hz. cbn. rewrite <- Hz. now rewrite set_volume_same.
Qed.

Lemma drop_duplicates_clean (l : list Row) :
  NoDup (map key l) -> drop_duplicates l = l.
Proof.
  intros Hnd. apply drop_duplicates_from_id; [exact Hnd |].
  intros r _ [].
Qed.

(** C9. Every row of the frame [clean_stock_data] returns has its five
    prices strictly positive, [high] at least [low], [open] and [close],
    [low] at most [open] and [close], and, when the frame has a volume
    column, an integer volume that is not negative; no two rows have the
    same (ticker, date); and the rows are in the order of ticker, then
    date. *)
Theorem clean_stock_data_invariants (df out : DataFrame) :
  clean_stock_data df = Ok out ->
  columns df <> [] ->
  Forall (fun r =>
            (forall c, (0 <? price c r)%float = true)
            /\ (low r <=? high r)%float = true
            /\ (open r <=? high r)%float = true
            /\ (close r <=? high r)%float = true
            /\ (low r <=? open r)%float = true
            /\ (low r <=? close r)%float = true
            /\ (has_column (columns out) "volume" = true ->
                exists z, volume r = VInt z /\ (0 <= z)%Z))
         (rows out)
  /\ NoDup (map key (rows out))
  /\ StronglySorted key_le (rows out).
Proof.
  intros H Hcols.
  destruct (empty df) eqn:He.
  - unfold clean_stock_data in H. rewrite He in H. injection H as <-.
    assert (Hrows : rows df = []).
    { unfold empty in He. destruct (rows df); [reflexivity |].
      destruct (columns df); [contradiction | discriminate]. }
    rewrite Hrows. repeat constructor.
  - destruct (clean_stock_data_inv _ H He) as (rs6 & -> & Hclean & _).
    cbn [rows columns]. split; [| split].
    + apply sorted_rows_clean in Hclean.
      eapply Forall_impl; [| exact Hclean].
      intros r (_ & _ & Hprice & Hrange & Hvol).
      unfold valid_range in Hrange.
      repeat (apply andb_true_iff in Hrange; destruct Hrange as [Hrange ?]).
      repeat split; try assumption. apply Hprice.
    + apply sorted_rows_NoDup.
    + apply Sorted_StronglySorted; [exact key_le_Transitive |].
      apply sort_values_Sorted.
Qed.

(** C10. Cleaning is idempotent: cleaning the frame [clean_stock_data]
    returned returns that same frame. *)
Theorem clean_stock_data_idempotent (df out : DataFrame) :
  clean_stock_data df = Ok out ->
  clean_stock_data out = Ok out.
Proof.
  intros H.
  destruct (empty df) eqn:He.
  - unfold clean_stock_data in H. rewrite He in H. injection H as <-.
    unfold clean_stock_data. now rewrite He.
  - destruct (clean_stock_data_inv _ H He) as (rs6 & -> & Hclean & Hr1 & Hr2).
    set (l := sort_values (drop_duplicates rs6)).
    assert (Hl : Forall (clean_row (columns df)) l)
      by now apply sorted_rows_clean.
    unfold clean_stock_data.
    destruct (empty (mkFrame (columns df) l)) eqn:He'; [reflexivity |].
    cbn [columns rows]. cbv zeta.
    rewrite (convert_dates_clean Hl). cbn [bind].
    rewrite (upper_tickers_clean Hl), Hr1. cbn [bind].
    rewrite (filter_prices_clean Hl), (clean_volume_clean Hl). cbn [bind].
    rewrite Hr2. cbn [bind].
    rewrite drop_duplicates_clean by apply sorted_rows_NoDup.
    rewrite sort_values_id by apply sort_values_Sorted.
    reflexivity.
Qed.

(** *** When the function returns *)

Lemma map_result_returned {A B : Type} (f : A -> result B) (l : list A) :
  Forall (fun a => returned (f a)) l -> returned (map_result f l).
Proof.
  induction 1 as [| a l [b Hb] _ [bs Hbs]]; cbn.
  - now exists [].
  - rewrite Hb, Hbs. cbn. now exists (b :: bs).
Qed.

Lemma convert_dates_volume (cols : list string) (rs rs1 : list Row) (r : Row) :
  convert_dates cols rs = Ok rs1 -> In r rs1 ->
  exists r0, In r0 rs /\ volume r = volume r0.
Proof.
  unfold convert_dates. destruct (has_column cols "date").
  - destruct (map_result _ rs) as [parsed |] eqn:Hp; cbn; [| discriminate].
    intros H Hin. injection H as <-.
    apply in_map_iff in Hin. destruct Hin as (p & <- & Hpin).
    apply map_result_Forall2 in Hp.
    destruct (@Forall2_in_r _ _ _ _ _ _ Hp Hpin) as (r0 & Hr0 & Heq).
    cbn in Heq. destruct (to_datetime (date r0)); cbn in Heq; [| discriminate].
    injection Heq as <-. now exists r0.
  - intros H Hin. injection H as <-. now exists r.
Qed.

Lemma upper_tickers_volume (cols : list string) (rs : list Row) (r : Row) :
  In r (upper_tickers cols rs) ->
  exists r0, In r0 rs /\ volume r = volume r0.
Proof.
  unfold upper_tickers. destruct (has_column cols "ticker").
  - intros Hin. apply in_map_iff in Hin. destruct Hin as (r0 & <- & Hr0).
    now exists r0.
  - intros Hin. now exists r.
Qed.

(** The function returns a frame as soon as every date parses, every
    volume casts, and the seven columns it indexes are there. *)
Lemma clean_stock_data_returns (df : DataFrame) :
  Forall (fun r => returned (to_datetime (date r))) (rows df) ->
  Forall (fun r => returned (astype_int (fillna0 (volume r)))) (rows df) ->
  require_columns (columns df) (map col_name price_cols) = Ok tt ->
  require_columns (columns df) ["ticker"; "date"]%string = Ok tt ->
  returned (clean_stock_data df).
Proof.
  intros Hdates Hvols Hr1 Hr2. unfold clean_stock_data.
  destruct (empty df); [now exists df |]. cbv zeta.
  assert (H1 : returned (convert_dates (columns df) (rows df))).
  { unfold convert_dates. destruct (has_column (columns df) "date");
      [| now exists (rows df)].
    destruct (map_result_returned
                (fun r => d <- to_datetime (date r) ;; Ok (set_date r d))
                (l := rows df)) as [parsed Hp].
    - eapply Forall_impl; [| exact Hdates].
      intros r [d Hd]. cbn beta. rewrite Hd. cbn. now eexists.
    - rewrite Hp. cbn. now eexists. }
  destruct H1 as [rs1 H1]. rewrite H1, Hr1. cbn [bind].
  assert (H6 : returned (clean_volume
                           (columns df)
                           (filter_prices (upper_tickers (columns df) rs1)))).
  { unfold clean_volume. destruct (has_column (columns df) "volume");
      [| now eexists].
    destruct (map_result_returned
                (fun r => v <- astype_int (fillna0 (volume r)) ;;
                          Ok (set_volume r v))
                (l := filter_prices (upper_tickers (columns df) rs1)))
      as [cast Hc].
    - apply Forall_forall. intros r Hr.
      apply filter_prices_In in Hr. destruct Hr as [Hr _].
      apply upper_tickers_volume in Hr. destruct Hr as (r1 & Hr1in & ->).
      destruct (convert_dates_volume _ _ _ H1 Hr1in) as (r0 & Hr0 & ->).
      rewrite Forall_forall in Hvols. destruct (Hvols r0 Hr0) as [v Hv].
      rewrite Hv. cbn. now eexists.
    - rewrite Hc. cbn. now eexists. }
  destruct H6 as [rs6 H6]. rewrite H6, Hr2. cbn. now eexists.
Qed.

End CleanFacts.

(** ** A concrete frame

    A parser that knows the dates of the fixture, and the cast of a
    finite float by truncation towards zero. *)

Definition demo_parse (s : string) : result (option (Z * Z)) :=
  if String.eqb s "2024-01-01" then Ok (Some (19723, 0))%Z
  else if String.eqb s "2024-01-02" then Ok (Some (19724, 0))%Z
  else if String.eqb s "2024-01-01 09:30:00"
       then Ok (Some (19723, 34200000000000))%Z
  else if String.eqb s "NaT" then Ok None
  else Raise (Exception "ValueError" "Unknown datetime string format").

Definition demo_cast (f : float) : result Z :=
  match Prim2SF f with
  | S754_zero _ => Ok 0%Z
  | S754_finite sign m e =>
      let magnitude := if (0 <=? e)%Z then (Z.pos m * 2 ^ e)%Z
                       else (Z.pos m / 2 ^ (- e))%Z in
      Ok (if sign then (- magnitude)%Z else magnitude)
  | _ => Raise (Exception "IntCastingNaNError"
                          "Cannot convert non-finite values (NA or inf) to integer")
  end.

Definition demo_pandas : Pandas := {|
  parse_datetime := demo_parse;
  float_to_int64 := demo_cast
|}.

Definition stock_columns : list string :=
  ["ticker"; "date"; "open"; "high"; "low"; "close"; "adj_close"; "volume"]%string.

(** Lower-case and duplicated tickers, rows out of order, a negative
    price, a high below the low, a missing price, float and missing
    volumes. *)
Definition messy : DataFrame :=
  mkFrame stock_columns
    [ mkRow "nvda" (DateStr "2024-01-02") 200 201 199 200 200 (VInt 2000000);
      mkRow "AAPL" (DateStr "2024-01-02") 151 153 150 152 152 (VFloat 1100000.5);
      mkRow "AAPL" (DateStr "2024-01-01") 150 152 149 151 151 (VFloat nan);
      mkRow "aapl" (DateStr "2024-01-01 09:30:00") 150.5 152 149 151 151 (VInt 7);
      mkRow "NVDA" (DateStr "2024-01-01") (-50) 201 199 200 200 (VInt 2100000);
      mkRow "MSFT" (DateStr "2024-01-01") 150 140 145 148 148 (VInt 1000000);
      mkRow "MSFT" (DateStr "2024-01-02") nan 201 199 200 200 (VInt 1000000);
      mkRow "MSFT" (Date 19725) 300 301 299 300 300 (VFloat (-0.5)) ]%float.

Definition cleaned : DataFrame :=
  mkFrame stock_columns
    [ mkRow "AAPL" (Date 19723) 150 152 149 151 151 (VInt 0);
      mkRow "AAPL" (Date 19724) 151 153 150 152 152 (VInt 1100000);
      mkRow "MSFT" (Date 19725) 300 301 299 300 300 (VInt 0);
      mkRow "NVDA" (Date 19724) 200 201 199 200 200 (VInt 2000000) ]%float.

Lemma clean_messy : @clean_stock_data demo_pandas messy = Ok cleaned.
Proof. vm_compute. reflexivity. Qed.

(** The cases of tests/test_transform.py, on the fixtures of
    tests/conftest.py. *)

Definition dirty_stock_data : DataFrame :=
  mkFrame stock_columns
    [ mkRow "AAPL" (DateStr "2024-01-01") 150 152 149 151 151 (VInt 1000000);
      mkRow "AAPL" (DateStr "2024-01-02") 151 153 150 152 152 (VInt 1100000);
      mkRow "NVDA" (DateStr "2024-01-01") 200 201 199 200 200 (VInt 2000000);
      mkRow "NVDA" (DateStr "2024-01-02") (-50) 201 199 200 200 (VInt 2100000)
    ]%float.

Lemma test_clean_stock_data_removes_negative_prices :
  exists out,
    @clean_stock_data demo_pandas dirty_stock_data = Ok out
    /\ (length (rows out) < length (rows dirty_stock_data))%nat
    /\ forallb (fun r => (0 <? open r)%float) (rows out) = true.
Proof.
  eexists. split; [vm_compute; reflexivity |].
  split; [cbn; lia | reflexivity].
Qed.

Lemma test_clean_stock_data_removes_duplicates :
  exists out,
    @clean_stock_data demo_pandas
      (mkFrame stock_columns
               (rows cleaned ++ [nth 0 (rows cleaned) (mkRow "" NaT 0 0 0 0 0 (VInt 0))]))
    = Ok out
    /\ length (rows out) = length (rows cleaned).
Proof.
  eexists. split; [vm_compute; reflexivity | reflexivity].
Qed.

Lemma test_clean_stock_data_validates_price_ranges :
  @clean_stock_data demo_pandas
    (mkFrame stock_columns
       [mkRow "AAPL" (DateStr "2024-01-01") 150 140 145 148 148
              (VInt 1000000)]%float)
  = Ok (mkFrame stock_columns []).
Proof. vm_compute. reflexivity. Qed.

Lemma test_clean_stock_data_handles_missing_values :
  exists out,
    @clean_stock_data demo_pandas
      (mkFrame stock_columns
         [ mkRow "AAPL" (DateStr "2024-01-01") 150 152 149 151 151
                 (VInt 1000000);
           mkRow "NVDA" (DateStr "2024-01-02") nan 201 199 200 200
                 (VInt 2000000) ]%float)
    = Ok out
    /\ map ticker (rows out) = ["AAPL"%string].
Proof.
  eexists. split; [vm_compute; reflexivity | reflexivity].
Qed.

Lemma clean_stock_data_invariants_witness :
  Forall (fun r => (0 <? open r)%float = true
                   /\ (low r <=? high r)%float = true
                   /\ exists z, volume r = VInt z /\ (0 <= z)%Z)
         (rows cleaned)
  /\ NoDup (map key (rows cleaned))
  /\ StronglySorted key_le (rows cleaned).
Proof.
  destruct (@clean_stock_data_invariants demo_pandas messy cleaned)
    as (Hrows & Hnd & Hsorted); [exact clean_messy | discriminate |].
  split; [| split; assumption].
  eapply Forall_impl; [| exact Hrows].
  intros r (Hprice & Hlow & _ & _ & _ & _ & Hvol).
  split; [exact (Hprice Open) |]. split; [exact Hlow |].
  now apply Hvol.
Defined.

Lemma clean_stock_data_idempotent_witness :
  @clean_stock_data demo_pandas cleaned = Ok cleaned.
Proof.
  exact (@clean_stock_data_idempotent demo_pandas messy cleaned clean_messy).
Defined.

(** ** Further properties of the cleaning step *)

Lemma Forall2_in_l {A B : Type} (R : A -> B -> Prop) (l : list A)
      (l' : list B) (a : A) :
  Forall2 R l l' -> In a l -> exists b, In b l' /\ R a b.
Proof.
  induction 1 as [| a0 b0 l l' Hab _ IH]; intros Hin; [contradiction |].
  destruct Hin as [<- | Hin].
  - exists b0. split; [now left | exact Hab].
  - destruct (IH Hin) as (b & Hb & HR). exists b. split; [now right | exact HR].
Qed.

Lemma map_result_length {A B : Type} (f : A -> result B) (l : list A)
      (l' : list B) :
  map_result f l = Ok l' -> length l' = length l.
Proof.
  intros H. apply map_result_Forall2 in H. symmetry.
  eapply Forall2_length; eassumption.
Qed.

Lemma map_result_raises {A B : Type} (f : A -> result B) (l : list A) (a : A)
      (e : exception) :
  In a l -> f a = Raise e -> exists e', map_result f l = Raise e'.
Proof.
  intros Hin Ha.
  destruct (map_result f l) as [l' |] eqn:Hl; [| eauto].
  apply map_result_Forall2 in Hl.
  destruct (@Forall2_in_l _ _ _ _ _ _ Hl Hin) as (b & _ & Hb). congruence.
Qed.

Lemma fold_filter_length {A C : Type} (p : C -> A -> bool) (cs : list C) :
  forall l : list A,
    (length (fold_left (fun l' c => filter (p c) l') cs l) <= length l)%nat.
Proof.
  induction cs as [| c cs IH]; intros l; cbn; [lia |].
  etransitivity; [apply IH | apply filter_length_le].
Qed.

Lemma drop_duplicates_from_length (rs : list Row) :
  forall seen, (length (drop_duplicates_from seen rs) <= length rs)%nat.
Proof.
  induction rs as [| x rs IH]; intros seen; cbn; [lia |].
  destruct (in_dec key_eq_dec (key x) seen); cbn.
  - specialize (IH seen). lia.
  - specialize (IH (key x :: seen)). lia.
Qed.

Lemma drop_duplicates_from_complete (rs : list Row) :
  forall seen r,
    In r rs ->
    In (key r) seen
    \/ exists r', In r' (drop_duplicates_from seen rs) /\ key r' = key r.
Proof.
  induction rs as [| x rs IH]; intros seen r Hin; [contradiction |].
  cbn [drop_duplicates_from].
  destruct (in_dec key_eq_dec (key x) seen) as [Hx | Hx].
  - destruct Hin as [-> | Hin]; [now left | now apply IH].
  - destruct Hin as [-> | Hin].
    + right. exists r. split; [now left | reflexivity].
    + destruct (IH (key x :: seen) r Hin) as [[Heq | Hseen] | (r' & Hr' & Hk)].
      * right. exists x. split; [now left | exact Heq].
      * now left.
      * right. exists r'. split; [now right | exact Hk].
Qed.

Lemma require_columns_has (cols names : list string) :
  require_columns cols names = Ok tt ->
  forall n, In n names -> has_column cols n = true.
Proof.
  induction names as [| m names IH]; intros H n Hn; [contradiction |].
  cbn in H. destruct (has_column cols m) eqn:Hm; [| discriminate].
  destruct Hn as [<- | Hn]; [exact Hm | now apply IH].
Qed.

Section CleanMore.
Context {pd : Pandas}.

Lemma clean_stock_data_stages (df out : DataFrame) :
  clean_stock_data df = Ok out ->
  empty df = false ->
  exists rs1 rs6,
    convert_dates (columns df) (rows df) = Ok rs1
    /\ clean_volume (columns df)
                    (filter_prices (upper_tickers (columns df) rs1)) = Ok rs6
    /\ out = mkFrame (columns df) (sort_values (drop_duplicates rs6))
    /\ forall n,
         In n (map col_name price_cols ++ ["ticker"; "date"]%string) ->
         has_column (columns df) n = true.
Proof.
  intros H He. unfold clean_stock_data in H. rewrite He in H.
  cbv zeta in H.
  destruct (convert_dates (columns df) (rows df)) as [rs1 |] eqn:H1;
    cbn [bind] in H; [| discriminate].
  destruct (require_columns (columns df) (map col_name price_cols))
    as [[] |] eqn:Hr1; cbn [bind] in H; [| discriminate].
  destruct (clean_volume (columns df)
                         (filter_prices (upper_tickers (columns df) rs1)))
    as [rs6 |] eqn:H6; cbn [bind] in H; [| discriminate].
  destruct (require_columns (columns df) ["ticker"; "date"]%string)
    as [[] |] eqn:Hr2; cbn [bind] in H; [| discriminate].
  injection H as <-. exists rs1, rs6.
  split. { reflexivity. }
  split. { exact H6. }
  split. { reflexivity. }
  intros n Hn. apply in_app_or in Hn. destruct Hn as [Hn | Hn].
  - eapply require_columns_has; [exact Hr1 | exact Hn].
  - eapply require_columns_has; [exact Hr2 | exact Hn].
Qed.

(** *** Where an output row comes from *)

Lemma astype_int_VInt (v v' : volume_cell) :
  astype_int v = Ok v' -> exists z, v' = VInt z.
Proof.
  destruct v as [z | f]; cbn.
  - intros H. injection H as <-. eauto.
  - destruct (float_to_int64 f) as [z |]; cbn; [| discriminate].
    intros H. injection H as <-. eauto.
Qed.

Lemma convert_dates_trace (cols : list string) (rs rs1 : list Row) (r : Row) :
  convert_dates cols rs = Ok rs1 ->
  has_column cols "date" = true ->
  In r rs1 ->
  exists r0 d,
    In r0 rs /\ to_datetime (date r0) = Ok d /\ r = set_date r0 (dt_date d).
Proof.
  unfold convert_dates. intros H Hd Hin. rewrite Hd in H.
  destruct (map_result _ rs) as [parsed |] eqn:Hp; cbn in H; [| discriminate].
  injection H as <-.
  apply in_map_iff in Hin. destruct Hin as (p & <- & Hpin).
  apply map_result_Forall2 in Hp.
  destruct (@Forall2_in_r _ _ _ _ _ _ Hp Hpin) as (r0 & Hr0 & Heq).
  cbn in Heq. destruct (to_datetime (date r0)) as [d |] eqn:Hd0; cbn in Heq;
    [| discriminate].
  injection Heq as <-. exists r0, d. now destruct r0.
Qed.

Lemma upper_tickers_trace (cols : list string) (rs : list Row) (r : Row) :
  has_column cols "ticker" = true ->
  In r (upper_tickers cols rs) ->
  exists r0, In r0 rs /\ r = set_ticker r0 (upper (ticker r0)).
Proof.
  unfold upper_tickers. intros -> Hin.
  apply in_map_iff in Hin. destruct Hin as (r0 & <- & Hr0). eauto.
Qed.

Lemma clean_volume_trace (cols : list string) (rs rs6 : list Row) (r : Row) :
  clean_volume cols rs = Ok rs6 ->
  In r rs6 ->
  exists r0,
    In r0 rs
    /\ ((has_column cols "volume" = true
         /\ exists z, astype_int (fillna0 (volume r0)) = Ok (VInt z)
                      /\ r = set_volume r0 (VInt z))
        \/ (has_column cols "volume" = false /\ r = r0)).
Proof.
  unfold clean_volume.
  destruct (has_column cols "volume") eqn:Hv.
  - destruct (map_result _ rs) as [cast |] eqn:Hc; cbn; [| discriminate].
    intros H Hin. injection H as <-.
    apply filter_In in Hin. destruct Hin as [Hin _].
    apply map_result_Forall2 in Hc.
    destruct (@Forall2_in_r _ _ _ _ _ _ Hc Hin) as (r0 & Hr0 & Hcast).
    cbn in Hcast.
    destruct (astype_int (fillna0 (volume r0))) as [v |] eqn:Hv0;
      cbn in Hcast; [| discriminate].
    injection Hcast as <-.
    destruct (astype_int_VInt _ Hv0) as [z ->].
    exists r0. split; [exact Hr0 |]. left. split; [reflexivity |].
    exists z. auto.
  - intros H Hin. injection H as <-. exists r. auto.
Qed.

Lemma stages_length (cols : list string) (rs rs1 rs6 : list Row) :
  convert_dates cols rs = Ok rs1 ->
  clean_volume cols (filter_prices (upper_tickers cols rs1)) = Ok rs6 ->
  (length (sort_values (drop_duplicates rs6)) <= length rs)%nat.
Proof.
  intros H1 H6.
  assert (L1 : length rs1 = length rs).
  { unfold convert_dates in H1. destruct (has_column cols "date").
    - destruct (map_result _ rs) as [parsed |] eqn:Hp; cbn in H1;
        [| discriminate].
      injection H1 as <-. rewrite length_map.
      eapply map_result_length; eassumption.
    - now injection H1 as <-. }
  assert (L2 : length (upper_tickers cols rs1) = length rs1).
  { unfold upper_tickers. destruct (has_column cols "ticker");
      [apply length_map | reflexivity]. }
  assert (L5 : (length (filter_prices (upper_tickers cols rs1))
                <= length (upper_tickers cols rs1))%nat).
  { unfold filter_prices, positive_prices, dropna_prices.
    etransitivity; [apply filter_length_le |].
    etransitivity; [apply fold_filter_length | apply filter_length_le]. }
  assert (L6 : (length rs6
                <= length (filter_prices (upper_tickers cols rs1)))%nat).
  { unfold clean_volume in H6. destruct (has_column cols "volume").
    - destruct (map_result _ (filter_prices _)) as [cast |] eqn:Hc;
        cbn in H6; [| discriminate].
      injection H6 as <-.
      etransitivity; [apply filter_length_le |].
      erewrite map_result_length by eassumption. lia.
    - injection H6 as <-. lia. }
  rewrite (Permutation_length (sort_values_Permutation _)).
  pose proof (drop_duplicates_from_length rs6 []) as L7.
  unfold drop_duplicates. lia.
Qed.

(** X9. Cleaning only removes rows and never alters a price: the frame
    returned for a non-empty frame has at most as many rows, and each of
    its rows comes from a row of the input with the same five prices, the
    ticker in upper case, the date of its parsed timestamp, and (when
    there is a volume column) the volume cast to an integer. *)
Theorem clean_rows_from_input (df out : DataFrame) :
  clean_stock_data df = Ok out ->
  empty df = false ->
  (length (rows out) <= length (rows df))%nat
  /\ forall r, In r (rows out) ->
       exists r0 d,
         In r0 (rows df)
         /\ (forall c, price c r = price c r0)
         /\ ticker r = upper (ticker r0)
         /\ to_datetime (date r0) = Ok d /\ date r = dt_date d
         /\ (has_column (columns df) "volume" = true ->
             exists z, astype_int (fillna0 (volume r0)) = Ok (VInt z)
                       /\ volume r = VInt z)
         /\ (has_column (columns df) "volume" = false ->
             volume r = volume r0).
Proof.
  intros H He.
  edestruct clean_stock_data_stages as (rs1 & rs6 & H1 & H6 & Hout & Hcols);
    [exact H | exact He |]. subst out.
  cbn [rows]. split; [eapply stages_length; eassumption |].
  intros r Hin.
  apply (Permutation_in _ (sort_values_Permutation _)) in Hin.
  apply drop_duplicates_from_In in Hin.
  edestruct clean_volume_trace as (r5 & Hr5 & Hvol); [exact H6 | exact Hin |].
  apply filter_prices_In in Hr5. destruct Hr5 as (Hr2 & _).
  apply upper_tickers_trace in Hr2; [| apply Hcols; cbn; auto 10].
  destruct Hr2 as (r1 & Hr1 & ->).
  eapply convert_dates_trace in Hr1; [| exact H1 | apply Hcols; cbn; auto 10].
  destruct Hr1 as (r0 & d & Hr0 & Hd & ->).
  exists r0, d. split; [exact Hr0 |].
  destruct Hvol as [(Hv & z & Hz & ->) | (Hv & ->)].
  - repeat split; try assumption; try (now destruct c).
    + intros _. exists z. auto.
    + rewrite Hv. discriminate.
  - repeat split; try assumption; try (now destruct c).
    rewrite Hv. discriminate.
Qed.

(** X10. No valid row is lost but to a duplicate: when a row of a
    non-empty input has five positive prices in a valid range and (if
    there is a volume column) a volume that does not cast to a negative
    integer, the returned frame has a row with its ticker in upper case
    and the date of its parsed timestamp. *)
Theorem clean_keeps_valid_rows (df out : DataFrame) (r0 : Row) :
  clean_stock_data df = Ok out ->
  empty df = false ->
  In r0 (rows df) ->
  (forall c, is_nan (price c r0) = false /\ (0 <? price c r0)%float = true) ->
  valid_range r0 = true ->
  (forall z, astype_int (fillna0 (volume r0)) = Ok (VInt z) -> (0 <= z)%Z) ->
  exists d r,
    to_datetime (date r0) = Ok d
    /\ In r (rows out)
    /\ ticker r = upper (ticker r0)
    /\ date r = dt_date d.
Proof.
  intros H He Hin Hprice Hrange Hvol.
  edestruct clean_stock_data_stages as (rs1 & rs6 & H1 & H6 & Hout & Hcols);
    [exact H | exact He |]. subst out. cbn [rows].
  assert (Hd : has_column (columns df) "date" = true)
    by (apply Hcols; cbn; auto 10).
  assert (Ht : has_column (columns df) "ticker" = true)
    by (apply Hcols; cbn; auto 10).
  (* through the dates *)
  unfold convert_dates in H1. rewrite Hd in H1.
  destruct (map_result _ (rows df)) as [parsed |] eqn:Hp; cbn in H1;
    [| discriminate].
  injection H1 as <-.
  apply map_result_Forall2 in Hp.
  destruct (@Forall2_in_l _ _ _ _ _ _ Hp Hin) as (p & Hpin & Hpeq).
  cbn in Hpeq.
  destruct (to_datetime (date r0)) as [d |] eqn:Hd0; cbn in Hpeq;
    [| discriminate].
  injection Hpeq as <-.
  set (r1 := set_date (set_date r0 d) (dt_date (date (set_date r0 d)))).
  assert (Hr1 : In r1 (map (fun r => set_date r (dt_date (date r))) parsed))
    by (apply in_map_iff; exists (set_date r0 d);
        split; [reflexivity | exact Hpin]).
  (* through the tickers and the price filters *)
  set (r2 := set_ticker r1 (upper (ticker r1))).
  assert (Hr2 : In r2 (filter_prices
                         (upper_tickers
                            (columns df)
                            (map (fun r => set_date r (dt_date (date r)))
                                 parsed)))).
  { apply filter_prices_In. split; [| split].
    - unfold upper_tickers. rewrite Ht. apply in_map_iff.
      exists r1. split; [reflexivity | exact Hr1].
    - intros c. destruct (Hprice c) as [Hn Hp0]. now destruct c.
    - exact Hrange. }
  (* through the volume *)
  assert (Hr6 : exists r, In r rs6 /\ key r = key r2).
  { unfold clean_volume in H6.
    destruct (has_column (columns df) "volume").
    - destruct (map_result _ (filter_prices _)) as [cast |] eqn:Hc;
        cbn in H6; [| discriminate].
      injection H6 as <-.
      apply map_result_Forall2 in Hc.
      destruct (@Forall2_in_l _ _ _ _ _ _ Hc Hr2) as (r3 & Hr3 & Heq).
      cbn in Heq.
      destruct (astype_int (fillna0 (volume r0))) as [v |] eqn:Hv0;
        cbn in Heq; [| discriminate].
      injection Heq as <-.
      destruct (astype_int_VInt _ Hv0) as [z ->].
      exists (set_volume r2 (VInt z)). split; [| reflexivity].
      apply filter_In. split; [exact Hr3 |].
      cbn. apply Z.leb_le. now apply Hvol.
    - injection H6 as <-. now exists r2. }
  destruct Hr6 as (r6 & Hr6 & Hk6).
  destruct (drop_duplicates_from_complete rs6 [] r6 Hr6)
    as [[] | (r & Hr & Hk)].
  exists d, r. split; [reflexivity |]. split.
  - apply (Permutation_in _ (Permutation_sym (sort_values_Permutation _))).
    exact Hr.
  - rewrite Hk6 in Hk. unfold key in Hk. cbn in Hk.
    injection Hk as Hticker Hdate. auto.
Qed.

(** X11. Clean data passes through unchanged: a frame that has the
    seven columns the function indexes, whose rows are clean, with
    pairwise distinct (ticker, date) and in the order of ticker, then
    date, is returned as it is. *)
Theorem clean_frame_unchanged (cols : list string) (l : list Row) :
  (forall n, In n (map col_name price_cols ++ ["ticker"; "date"]%string) ->
             has_column cols n = true) ->
  Forall (clean_row cols) l ->
  NoDup (map key l) ->
  Sorted key_le l ->
  clean_stock_data (mkFrame cols l) = Ok (mkFrame cols l).
Proof.
  intros Hcols Hl Hnd Hsorted.
  unfold clean_stock_data.
  destruct (empty (mkFrame cols l)); [reflexivity |].
  cbn [columns rows]. cbv zeta.
  rewrite (convert_dates_clean Hl). cbn [bind].
  rewrite (upper_tickers_clean Hl).
  assert (Hr1 : require_columns cols (map col_name price_cols) = Ok tt).
  { cbn. rewrite !Hcols by (cbn; auto 10). reflexivity. }
  assert (Hr2 : require_columns cols ["ticker"; "date"]%string = Ok tt).
  { cbn. rewrite !Hcols by (cbn; auto 10). reflexivity. }
  rewrite Hr1. cbn [bind].
  rewrite (filter_prices_clean Hl), (clean_volume_clean Hl). cbn [bind].
  rewrite Hr2. cbn [bind].
  rewrite drop_duplicates_clean by exact Hnd.
  rewrite sort_values_id by exact Hsorted.
  reflexivity.
Qed.


(** X13. One date that does not parse rejects the whole frame: when a
    non-empty frame has a date column and [pd.to_datetime] raises on the
    date of one of its rows, the function raises, whatever the other
    rows are. *)
Theorem clean_unparsable_date (df : DataFrame) (r0 : Row) (e0 : exception) :
  empty df = false ->
  has_column (columns df) "date" = true ->
  In r0 (rows df) ->
  to_datetime (date r0) = Raise e0 ->
  exists e, clean_stock_data df = Raise e.
Proof.
  intros He Hd Hin Hraise.
  unfold clean_stock_data. rewrite He. cbv zeta.
  unfold convert_dates. rewrite Hd.
  destruct (@map_result_raises _ _
              (fun r => d <- to_datetime (date r) ;; Ok (set_date r d))
              (rows df) r0 e0 Hin) as [e' He'].
  - cbn beta. now rewrite Hraise.
  - rewrite He'. cbn. eauto.
Qed.

(** X14. The tickers and dates of the output are normalised: every row
    of the frame returned for a non-empty frame has a ticker that is its
    own upper case and a date that is a [datetime.date] or NaT, with no
    time of day and no string left. *)
Theorem clean_rows_normalised (df out : DataFrame) :
  clean_stock_data df = Ok out ->
  empty df = false ->
  Forall (fun r => upper (ticker r) = ticker r /\ is_date (date r) = true)
         (rows out).
Proof.
  intros H He.
  edestruct clean_stock_data_stages as (rs1 & rs6 & H1 & H6 & Hout & Hcols);
    [exact H | exact He |]. subst out. cbn [rows].
  assert (Hclean : Forall (clean_row (columns df))
                          (sort_values (drop_duplicates rs6))).
  { apply sorted_rows_clean. eapply stages_clean; eassumption. }
  eapply Forall_impl; [| exact Hclean].
  intros r (Hdate & Hticker & _).
  split; [apply Hticker | apply Hdate]; apply Hcols; cbn; auto 10.
Qed.

End CleanMore.

(** ** The further properties on the concrete frame *)

Lemma messy_not_empty : @empty messy = false.
Proof. reflexivity. Qed.

Lemma clean_rows_from_input_witness :
  (length (rows cleaned) <= length (rows messy))%nat
  /\ forall r, In r (rows cleaned) ->
       exists r0, In r0 (rows messy) /\ open r = open r0
                  /\ ticker r = upper (ticker r0).
Proof.
  destruct (@clean_rows_from_input demo_pandas messy cleaned clean_messy
                                   messy_not_empty) as [Hlen Hrows].
  split; [exact Hlen |].
  intros r Hr. destruct (Hrows r Hr) as (r0 & d & Hr0 & Hprice & Ht & _).
  exists r0. split; [exact Hr0 |]. split; [exact (Hprice Open) | exact Ht].
Defined.

Lemma clean_keeps_valid_rows_witness :
  exists r, In r (rows cleaned)
            /\ ticker r = "NVDA"%string /\ date r = Date 19724.
Proof.
  destruct (@clean_keeps_valid_rows
              demo_pandas messy cleaned
              (mkRow "nvda" (DateStr "2024-01-02") 200 201 199 200 200
                     (VInt 2000000))
              clean_messy messy_not_empty)
    as (d & r & Hd & Hr & Ht & Hdate).
  - cbn. auto.
  - intros c. destruct c; split; reflexivity.
  - reflexivity.
  - intros z Hz. cbn in Hz. injection Hz as <-. lia.
  - exists r. split; [exact Hr |]. split; [exact Ht |].
    cbn in Hd. injection Hd as <-. exact Hdate.
Defined.

Lemma cleaned_rows_clean :
  Forall (clean_row stock_columns) (rows cleaned)
  /\ NoDup (map key (rows cleaned))
  /\ Sorted key_le (rows cleaned).
Proof.
  destruct (@clean_stock_data_inv demo_pandas messy cleaned clean_messy
                                  messy_not_empty)
    as (rs6 & Hout & Hclean & _).
  rewrite Hout. cbn [rows].
  split; [now apply sorted_rows_clean |].
  split; [apply sorted_rows_NoDup | apply sort_values_Sorted].
Qed.

Lemma clean_frame_unchanged_witness :
  @clean_stock_data demo_pandas (mkFrame stock_columns (rows cleaned))
  = Ok (mkFrame stock_columns (rows cleaned)).
Proof.
  destruct cleaned_rows_clean as (Hclean & Hnd & Hsorted).
  apply (@clean_frame_unchanged demo_pandas stock_columns (rows cleaned));
    try assumption.
  intros n Hn. cbn in Hn.
  repeat (destruct Hn as [<- | Hn]; [reflexivity |]). contradiction.
Defined.



(** The fixture with one more row, whose date is no date. *)
Definition one_bad_date : DataFrame :=
  mkFrame stock_columns
          (rows dirty_stock_data
           ++ [mkRow "AAPL" (DateStr "yesterday") 150 152 149 151 151
                     (VInt 1000000)]%float).

Lemma clean_unparsable_date_witness :
  exists e, @clean_stock_data demo_pandas one_bad_date = Raise e.
Proof.
  apply (@clean_unparsable_date
           demo_pandas one_bad_date
           (mkRow "AAPL" (DateStr "yesterday") 150 152 149 151 151
                  (VInt 1000000))
           (Exception "ValueError" "Unknown datetime string format"));
    [reflexivity | reflexivity | cbn; auto 10 | reflexivity].
Defined.

Lemma clean_rows_normalised_witness :
  Forall (fun r => upper (ticker r) = ticker r /\ is_date (date r) = true)
         (rows cleaned).
Proof.
  exact (@clean_rows_normalised demo_pandas messy cleaned clean_messy
                                messy_not_empty).
Defined.

End Transform.
